(** * Calorie tracker: the daily ledger, the reply parser and the summary

    A shallow embedding of [calorie_tracker.py] (class [CalorieTracker])
    and the properties of its specification.

    Conventions of the embedding.
    - Python [str] is [string]; the scan of the regular expression works on
      the list of its characters.  A character is a code point below 256:
      the decimal digits are the ASCII ones, the white space is that of
      these code points.
    - A Python [float] is the rational it equals ([Q]); infinities and NaN
      are outside the model.  Comparisons are exact.  Additions and
      subtractions round: the functions of the module [Rounded] take them
      as a parameter ([arithmetic]), so that what is proved of them holds
      of binary floating point; the functions outside it add exactly, and
      serve where no sum is stated.
    - Exceptions are values of [exn]; a computation returns a [result].
    - Values decoded from JSON, and the dictionaries and lists the program
      builds from them, are values of [json]. *)

From Stdlib Require Import QArith Qabs Ascii String List ZArith Lia Bool.
From stdpp Require Import gmap strings list.

(** ** Exceptions and results *)

(** The messages of the exceptions the program raises itself, kept
    structured instead of formatted. *)
Inductive message : Type :=
| MsgExpected4 (got : nat) (numbers : list string)
    (* "Expected 4 numbers from LLM, got {len(numbers)}: {numbers}" *)
| MsgFailedToParse (cause : message)
    (* "Failed to parse nutritional data: {e}" *)
| MsgFailedToQuery (cause : message)
    (* "Failed to query LLM: {e}" *)
| MsgFoodEmpty
    (* "Food description cannot be empty" *)
| MsgBuiltin (text : string).
    (* the message of an exception raised by the interpreter or a library *)

Inductive exn : Type :=
| ValueError (m : message)
| IndexError (m : message)
| KeyError (key : string)
| TypeError
| AttributeError
| JSONDecodeError
| OSError
| RequestException (m : message)
| Exception_ (m : message).

Definition exn_message (e : exn) : message :=
  match e with
  | ValueError m | IndexError m | RequestException m | Exception_ m => m
  | KeyError k => MsgBuiltin k
  | TypeError => MsgBuiltin "TypeError"
  | AttributeError => MsgBuiltin "AttributeError"
  | JSONDecodeError => MsgBuiltin "JSONDecodeError"
  | OSError => MsgBuiltin "OSError"
  end.

Inductive result (A : Type) : Type :=
| Ok (a : A)
| Raise (e : exn).
Arguments Ok {A} a.
Arguments Raise {A} e.

Definition is_ok {A} (r : result A) : bool :=
  match r with Ok _ => true | Raise _ => false end.

(** ** The regular expression [\d+\.?\d*] *)

Module Regex.

Definition is_digit (c : ascii) : bool :=
  match Ascii.is_nat c with Some _ => true | None => false end.

Definition is_dot (c : ascii) : bool := bool_decide (c = "."%char).

(** [\d*], greedy: the longest prefix of digits. *)
Fixpoint digits (s : list ascii) : list ascii :=
  match s with
  | c :: s' => if is_digit c then c :: digits s' else []
  | [] => []
  end.

(** The pattern anchored at the head of [s]: [\d+] takes every leading
    digit (at least one), [\.?] a dot when one follows, [\d*] every
    digit after it.  No step can fail once a digit was seen, so the
    greedy choice is the match. *)
Definition match_number (s : list ascii) : option (list ascii) :=
  match digits s with
  | [] => None
  | d1 =>
      match drop (length d1) s with
      | c :: r => if is_dot c then Some (d1 ++ c :: digits r) else Some d1
      | [] => Some d1
      end
  end.

(** [re.findall]: scan from the left; where the pattern matches, emit the
    match and resume after it ([skip] characters of the match are still
    to be passed over); elsewhere step one character. *)
Fixpoint findall_from (skip : nat) (s : list ascii) : list (list ascii) :=
  match s with
  | [] => []
  | _ :: s' =>
      match skip with
      | S k => findall_from k s'
      | O =>
          match match_number s with
          | Some m => m :: findall_from (length m - 1) s'
          | None => findall_from 0 s'
          end
      end
  end.

Definition findall (s : string) : list string :=
  string_of_list_ascii <$> findall_from 0 (list_ascii_of_string s).


(** What the pattern can match: digits, or digits, a dot and digits. *)
Inductive number_shape : list ascii -> Prop :=
| shape_integer (d : list ascii) :
    d <> [] -> Forall (fun c => is_digit c = true) d -> number_shape d
| shape_point (d1 d2 : list ascii) :
    d1 <> [] -> Forall (fun c => is_digit c = true) d1 ->
    Forall (fun c => is_digit c = true) d2 ->
    number_shape (d1 ++ "."%char :: d2).

End Regex.

(** ** [float(s)] on decimal literals *)

Module Float.
Import Regex.

Definition digit_value (c : ascii) : Z :=
  match Ascii.is_nat c with Some n => Z.of_nat n | None => 0 end.

Definition digits_value (d : list ascii) : Z :=
  fold_left (fun acc c => 10 * acc + digit_value c)%Z d 0%Z.

(** An optional sign: the factor and the text after it. *)
Definition sign (s : list ascii) : Z * list ascii :=
  match s with
  | "-"%char :: r => ((-1)%Z, r)
  | "+"%char :: r => (1%Z, r)
  | _ => (1%Z, s)
  end.

(** The exponent part: nothing, or [e]/[E], an optional sign and at least
    one digit, up to the end of the text. *)
Definition exponent (s : list ascii) : option Z :=
  match s with
  | [] => Some 0%Z
  | c :: r =>
      if bool_decide (c = "e"%char) || bool_decide (c = "E"%char) then
        let '(sg, r') := sign r in
        match digits r' with
        | [] => None
        | d => if bool_decide (drop (length d) r' = []) then Some (sg * digits_value d)%Z
               else None
        end
      else None
  end.

(** [m * 10^k] as a rational. *)
Definition scale10 (m k : Z) : Q :=
  match k with
  | Z0 => (m # 1)%Q
  | Zpos p => ((m * Z.pow_pos 10 p) # 1)%Q
  | Zneg p => (m # Pos.pow 10 p)%Q
  end.

(** [float(s)] for the decimal literals: sign, digits with an optional
    point (a digit on at least one side of it), optional exponent.
    Python also strips surrounding white space, allows [_] between digits
    and reads [inf] and [nan]; the program passes none of these, and they
    are not modelled. *)
Definition float (s : string) : result Q :=
  let '(sg, r0) := sign (list_ascii_of_string s) in
  let d1 := digits r0 in
  let r1 := drop (length d1) r0 in
  let '(d2, r2) :=
    match r1 with
    | c :: t => if is_dot c then (digits t, drop (length (digits t)) t) else ([], r1)
    | [] => ([], r1)
    end in
  match d1 ++ d2 with
  | [] => Raise (ValueError (MsgBuiltin "could not convert string to float"))
  | ds =>
      match exponent r2 with
      | Some e => Ok (Qred (scale10 (sg * digits_value ds) (e - Z.of_nat (length d2))))
      | None => Raise (ValueError (MsgBuiltin "could not convert string to float"))
      end
  end.

(** The value of a literal without sign and exponent: its digits, scaled
    by the number of digits after the point. *)
Definition literal_value (d1 d2 : list ascii) : Q :=
  Qred (scale10 (1 * digits_value (d1 ++ d2)) (0 - Z.of_nat (length d2))).

End Float.

(** ** Nutrition estimates and the reply parser *)

Record Nutrition : Type := mkNutrition {
  proteins : Q;
  carbs : Q;
  fat : Q;
  calories : Q
}.

(** [numbers[i]]: the list is indexed, out of range raises [IndexError]. *)
Definition index {A} (l : list A) (i : nat) : result A :=
  match l !! i with
  | Some x => Ok x
  | None => Raise (IndexError (MsgBuiltin "list index out of range"))
  end.

Definition rbind {A B} (r : result A) (k : A -> result B) : result B :=
  match r with Ok a => k a | Raise e => Raise e end.

Notation "x <-? r ; k" := (rbind r (fun x => k))
  (at level 100, r at next level, k at level 200, right associativity).

Definition parse_nutritional_data (llm_response : string) : result Nutrition :=
  let numbers := Regex.findall llm_response in
  if (length numbers <? 4)%nat then
    Raise (ValueError (MsgExpected4 (length numbers) numbers))
  else
    let body :=
      n0 <-? index numbers 0; p <-? Float.float n0;
      n1 <-? index numbers 1; c <-? Float.float n1;
      n2 <-? index numbers 2; f <-? Float.float n2;
      n3 <-? index numbers 3; k <-? Float.float n3;
      Ok (mkNutrition p c f k) in
    match body with
    | Ok n => Ok n
    | Raise (ValueError m) => Raise (ValueError (MsgFailedToParse m))
    | Raise (IndexError m) => Raise (ValueError (MsgFailedToParse m))
    | Raise e => Raise e
    end.

(** ** JSON values with the operations Python applies to them *)

#[warnings="-register-all"] Inductive json : Type :=
| JNull
| JBool (b : bool)
| JNum (q : Q)
| JStr (s : string)
| JArr (l : list json)
| JObj (items : list (string * json)).

(** The items of a dictionary in insertion order; a key is looked up at its
    first item (the keys of a dictionary are distinct). *)
Fixpoint assoc (k : string) (items : list (string * json)) : option json :=
  match items with
  | [] => None
  | (k', v) :: rest => if bool_decide (k = k') then Some v else assoc k rest
  end.

(** [v[k]] for a string key [k]. *)
Definition subscript (v : json) (k : string) : result json :=
  match v with
  | JObj items =>
      match assoc k items with
      | Some x => Ok x
      | None => Raise (KeyError k)
      end
  | _ => Raise TypeError
  end.

(** [v.get(k, default)]: only a dictionary has the method. *)
Definition dict_get (v : json) (k : string) (default : json) : result json :=
  match v with
  | JObj items => Ok (from_option id default (assoc k items))
  | _ => Raise AttributeError
  end.

(** [v.append(x)]: only a list has the method. *)
Definition list_append (v : json) (x : json) : result (list json) :=
  match v with
  | JArr l => Ok (l ++ [x])
  | _ => Raise AttributeError
  end.

(** The truth value of [v] in a condition. *)
Definition truthy (v : json) : bool :=
  match v with
  | JNull => false
  | JBool b => b
  | JNum q => negb (Qeq_bool q 0)
  | JStr s => negb (bool_decide (s = ""))
  | JArr l => negb (bool_decide (l = []))
  | JObj items => negb (bool_decide (items = []))
  end.

Definition chars (s : string) : list json :=
  (fun c => JStr (String c "")) <$> list_ascii_of_string s.

(** [for x in v]: a list yields its elements, a dictionary its keys, a
    string its characters; nothing else is iterable. *)
Definition iterate (v : json) : result (list json) :=
  match v with
  | JArr l => Ok l
  | JObj items => Ok ((fun kv => JStr (fst kv)) <$> items)
  | JStr s => Ok (chars s)
  | _ => Raise TypeError
  end.

(** The number a value stands for in [+] and in a [.1f] format: a number,
    or a boolean (an integer in Python). *)
Definition as_number (v : json) : option Q :=
  match v with
  | JNum q => Some q
  | JBool b => Some (if b then 1 else 0)%Q
  | _ => None
  end.

(** [sum(e["nutrition"]["calories"] for e in entries)]: from 0, left to
    right; the first element that cannot be read or added raises.  The
    additions here are exact; [Rounded.sum_calories_from] is the same
    function with the additions of floats. *)
Fixpoint sum_calories_from (acc : Q) (entries : list json) : result Q :=
  match entries with
  | [] => Ok acc
  | e :: rest =>
      n <-? subscript e "nutrition";
      c <-? subscript n "calories";
      match as_number c with
      | Some q => sum_calories_from (acc + q)%Q rest
      | None => Raise TypeError
      end
  end.

Definition sum_calories (entries : list json) : result Q :=
  sum_calories_from 0%Q entries.

(** The dictionary [parse_nutritional_data] returns. *)
Definition nutrition_json (n : Nutrition) : json :=
  JObj [("proteins", JNum (proteins n)); ("carbs", JNum (carbs n));
        ("fat", JNum (fat n)); ("calories", JNum (calories n))].

(** ** Dates and times *)

Record datetime : Type := mkDatetime {
  year : nat; month : nat; day : nat;
  hour : nat; minute : nat; second : nat; microsecond : nat
}.

Definition digit_char (n : nat) : ascii := ascii_of_nat (48 + n mod 10).

(** [n] in decimal on [width] digits, zero padded. *)
Fixpoint pad (width n : nat) : string :=
  match width with
  | O => ""
  | S w => pad w (n / 10) +:+ String (digit_char n) ""
  end.

(** [today.strftime('%y-%m-%d')] *)
Definition strftime_ymd (t : datetime) : string :=
  pad 2 (year t) +:+ "-" +:+ pad 2 (month t) +:+ "-" +:+ pad 2 (day t).

(** [today.isoformat()]: the microseconds are printed when not zero. *)
Definition isoformat (t : datetime) : string :=
  pad 4 (year t) +:+ "-" +:+ pad 2 (month t) +:+ "-" +:+ pad 2 (day t) +:+ "T"
  +:+ pad 2 (hour t) +:+ ":" +:+ pad 2 (minute t) +:+ ":" +:+ pad 2 (second t)
  +:+ (if (microsecond t =? 0)%nat then "" else "." +:+ pad 6 (microsecond t)).

(** ** The world: files, standard output, and the outside *)

(** What a file holds: text [json.load] rejects, the text of a JSON value
    ([json.dump j] writes it, [json.load] reads it back as [j]), or
    nothing that can be opened for reading. *)
Inductive file : Type :=
| Undecodable
| Encoded (j : json)
| Unreadable.

(** The lines printed, with the values they show instead of their text. *)
Inductive line : Type :=
| WarnCouldNotRead (path : string) (e : exn)
| ExistingHeader (date_str : string)
| ExistingEntry (i : nat) (time : string) (food : json)
| ExistingNutrition (p c f k : Q)
| NoEntriesFound (date_str : string)
| Rule
| CurrentStatus (consumed : Q) (limit : Z)
| RemainingNow (remaining : Q)
| Title
| ProcessingCount (n : nat)
| ListedItem (i : nat) (food : string)
| Prompt
| QueryingLLM
| LLMResponse (reply : json)
| Saved (path : string)
| TotalEntries (n : nat)
| ProcessingItem (i n : nat) (food : string)
| Added (k : Q)
| SummaryTitle
| SummaryLimit (limit : Z)
| SummaryConsumed (consumed : Q)
| SummaryRemaining (remaining : Q)
| Exceeded (excess : Q)
| AlmostAtLimit
| DoingGreat
| CommittingAll (n : nat)
| GitCommitPush (path : string)
| ErrorReport (e : exn).

(** What [requests.post] and the two calls on its response give: a
    [RequestException] (no connection, an error status, a body that is not
    JSON), or the decoded body. *)
Inductive http_reply : Type :=
| RequestFailed (m : message)
| Body (j : json).

(** The outside of the program, asked at each interaction ([k] counts the
    interactions so far): the clock, the estimation service and the
    terminal. *)
Record environment : Type := mkEnvironment {
  now : nat -> datetime;
  post : nat -> string -> json -> http_reply;
  input : nat -> string
}.

Record world : Type := mkWorld {
  files : gmap string file;
  stdout : list line;
  ticks : nat
}.

(** ** Computations: state and exceptions *)

Definition M (A : Type) : Type := world -> result A * world.

Definition ret {A} (a : A) : M A := fun w => (Ok a, w).
Definition raise {A} (e : exn) : M A := fun w => (Raise e, w).
Definition lift {A} (r : result A) : M A := fun w => (r, w).

(** What was written and printed before an exception stays. *)
Definition bind {A B} (m : M A) (k : A -> M B) : M B :=
  fun w =>
    match m w with
    | (Ok a, w') => k a w'
    | (Raise e, w') => (Raise e, w')
    end.

Notation "x <- m ;; k" := (bind m (fun x => k))
  (at level 100, m at next level, k at level 200, right associativity).
Notation "m ;;; k" := (bind m (fun _ => k))
  (at level 100, k at level 200, right associativity).

(** [try: m  except <classes>: handler], [catches] telling the classes. *)
Definition try_except {A} (m : M A) (catches : exn -> bool) (handler : exn -> M A) : M A :=
  fun w =>
    match m w with
    | (Ok a, w') => (Ok a, w')
    | (Raise e, w') => if catches e then handler e w' else (Raise e, w')
    end.

Definition print (l : line) : M unit :=
  fun w => (Ok tt, mkWorld (files w) (stdout w ++ [l]) (ticks w)).

Definition ask {A} (f : nat -> A) : M A :=
  fun w => (Ok (f (ticks w)), mkWorld (files w) (stdout w) (S (ticks w))).

Definition lookup_file (path : string) : M (option file) :=
  fun w => (Ok (files w !! path), w).

Definition write_file (path : string) (f : file) : M unit :=
  fun w => (Ok tt, mkWorld (<[path := f]> (files w)) (stdout w) (ticks w)).

Definition exec {A} (m : M A) (w : world) : world := snd (m w).
Definition eval {A} (m : M A) (w : world) : result A := fst (m w).

(** ** The class [CalorieTracker] *)

Record CalorieTracker : Type := mkCalorieTracker {
  daily_limit : Z;
  llm_url : string;
  tracker_dir : string
}.

(** [__init__], with its default arguments.  (It also creates the
    directory and pulls from the remote; what the pull leaves in the
    directory is the files of the world the run starts in.) *)
Definition default_daily_limit : Z := 3000.
Definition default_llm_url : string := "http://localhost:11434/api/generate".

Definition init (limit : option Z) (url : option string) : CalorieTracker :=
  mkCalorieTracker (default default_daily_limit limit) (default default_llm_url url) "tracker".

(** [self.tracker_dir / name] *)
Definition path_join (dir name : string) : string := dir +:+ "/" +:+ name.

Definition Qltb (a b : Q) : bool := negb (Qle_bool b a).

(** [s.split("T")[1][:5]] *)
Fixpoint after_T (s : list ascii) : option (list ascii) :=
  match s with
  | [] => None
  | c :: r => if bool_decide (c = "T"%char) then Some r else after_T r
  end.

Fixpoint until_T (s : list ascii) : list ascii :=
  match s with
  | [] => []
  | c :: r => if bool_decide (c = "T"%char) then [] else c :: until_T r
  end.

Definition time_of_timestamp (ts : json) : result string :=
  match ts with
  | JStr s =>
      match after_T (list_ascii_of_string s) with
      | Some r => Ok (string_of_list_ascii (take 5 (until_T r)))
      | None => Raise (IndexError (MsgBuiltin "list index out of range"))
      end
  | _ => Raise AttributeError
  end.

(** [f"{v:.1f}"]: a number is formatted, a string refuses the format code,
    the other values refuse any format. *)
Definition format_1f (v : json) : result Q :=
  match as_number v with
  | Some q => Ok q
  | None =>
      match v with
      | JStr _ => Raise (ValueError (MsgBuiltin "Unknown format code 'f'"))
      | _ => Raise TypeError
      end
  end.

(** [s.strip()]: the white space among the code points below 256 is the
    controls 9 to 13 and 28 to 31, the space, the next line (133) and the
    no-break space (160). *)
Definition is_space (c : ascii) : bool :=
  let n := nat_of_ascii c in
  ((9 <=? n) && (n <=? 13) || (28 <=? n) && (n <=? 32)
   || (n =? 133) || (n =? 160))%nat.

Fixpoint lstrip (s : list ascii) : list ascii :=
  match s with
  | c :: r => if is_space c then lstrip r else s
  | [] => []
  end.

Definition strip (s : string) : string :=
  string_of_list_ascii (rev (lstrip (rev (lstrip (list_ascii_of_string s))))).

Section Tracker.

Variable E : environment.
Variable self : CalorieTracker.

Definition catches_load (e : exn) : bool :=
  match e with
  | JSONDecodeError | KeyError _ => true
  | _ => false
  end.

(** [open(file_path, 'r')] and [json.load(f)] *)
Definition json_load (f : file) : M json :=
  match f with
  | Encoded j => ret j
  | Undecodable => raise JSONDecodeError
  | Unreadable => raise OSError
  end.

Definition load_daily_data (date_str : string) : M json :=
  let file_path := path_join (tracker_dir self) (date_str +:+ ".json") in
  f <- lookup_file file_path;;
  match f with
  | Some f =>
      try_except
        (data <- json_load f;;
         lift (dict_get data "entries" (JArr [])))
        catches_load
        (fun e => print (WarnCouldNotRead file_path e);;; ret (JArr []))
  | None => ret (JArr [])
  end.

Definition get_user_input (food_descriptions : option (list string)) : M (list string) :=
  print Title;;;
  print Rule;;;
  match food_descriptions with
  | Some (food :: foods) =>
      let food_descriptions := food :: foods in
      print (ProcessingCount (length food_descriptions));;;
      (fix each (i : nat) (l : list string) : M unit :=
         match l with
         | [] => ret tt
         | f :: r => print (ListedItem i f);;; each (S i) r
         end) 1%nat food_descriptions;;;
      ret food_descriptions
  | _ =>
      print Prompt;;;
      typed <- ask (input E);;
      let food_description := strip typed in
      if bool_decide (food_description = "") then raise (ValueError MsgFoodEmpty)
      else ret [food_description]
  end.

Definition prompt_of (food_description : string) : string :=
  "You are a calorie tracking application. Your user ate " +:+ food_description
  +:+ ", how many proteins, carbs, fat and total number of calories did it have? Provide only 4 numbers, cut the rest".

Definition query_llm (food_description : string) : M Nutrition :=
  let prompt := prompt_of food_description in
  let payload := JObj [("model", JStr "qwen3:8b"); ("prompt", JStr prompt);
                       ("stream", JBool false)] in
  print QueryingLLM;;;
  response <- ask (fun k => post E k (llm_url self) payload);;
  match response with
  | RequestFailed m => raise (Exception_ (MsgFailedToQuery m))
  | Body j =>
      llm_response <- lift (dict_get j "response" (JStr ""));;
      print (LLMResponse llm_response);;;
      match llm_response with
      | JStr s => lift (parse_nutritional_data s)
      | _ => raise TypeError
      end
  end.

Definition save_to_file (food_description : string) (nutrition : Nutrition) : M string :=
  today <- ask (now E);;
  let date_str := strftime_ymd today in
  let filename := date_str +:+ ".json" in
  let filepath := path_join (tracker_dir self) filename in
  existing_entries <- load_daily_data date_str;;
  let entry := JObj [("timestamp", JStr (isoformat today));
                     ("food", JStr food_description);
                     ("nutrition", nutrition_json nutrition)] in
  existing_entries <- lift (list_append existing_entries entry);;
  total_calories <- lift (sum_calories existing_entries);;
  let data := JObj [("entries", JArr existing_entries);
                    ("total_calories", JNum total_calories);
                    ("date", JStr date_str)] in
  write_file filepath (Encoded data);;;
  print (Saved filepath);;;
  print (TotalEntries (length existing_entries));;;
  ret filepath.

Definition calculate_remaining_calories : M (Q * Q) :=
  today <- ask (now E);;
  let date_str := strftime_ymd today in
  existing_entries <- load_daily_data date_str;;
  entries <- lift (iterate existing_entries);;
  consumed <- lift (sum_calories entries);;
  let remaining := (inject_Z (daily_limit self) - consumed)%Q in
  ret (consumed, remaining).

Definition display_entry (i : nat) (entry : json) : M unit :=
  ts <- lift (subscript entry "timestamp");;
  timestamp <- lift (time_of_timestamp ts);;
  nutrition <- lift (subscript entry "nutrition");;
  food <- lift (subscript entry "food");;
  print (ExistingEntry i timestamp food);;;
  p0 <- lift (subscript nutrition "proteins");; p <- lift (format_1f p0);;
  c0 <- lift (subscript nutrition "carbs");; c <- lift (format_1f c0);;
  f0 <- lift (subscript nutrition "fat");; f <- lift (format_1f f0);;
  k0 <- lift (subscript nutrition "calories");; k <- lift (format_1f k0);;
  print (ExistingNutrition p c f k).

Fixpoint display_entries (i : nat) (entries : list json) : M unit :=
  match entries with
  | [] => ret tt
  | entry :: rest => display_entry i entry;;; display_entries (S i) rest
  end.

Definition display_existing_entries : M unit :=
  today <- ask (now E);;
  let date_str := strftime_ymd today in
  existing_entries <- load_daily_data date_str;;
  if truthy existing_entries then
    print (ExistingHeader date_str);;;
    print Rule;;;
    entries <- lift (iterate existing_entries);;
    display_entries 1 entries;;;
    print Rule
  else
    print (NoEntriesFound date_str);;;
    print Rule.

Definition display_daily_summary (consumed remaining : Q) : M unit :=
  print SummaryTitle;;;
  print (SummaryLimit (daily_limit self));;;
  print (SummaryConsumed consumed);;;
  print (SummaryRemaining remaining);;;
  if Qltb remaining 0 then print (Exceeded (Qabs remaining))
  else if Qltb remaining 200 then print AlmostAtLimit
  else print DoingGreat.

(** The remote is outside the model: the attempt is recorded, its
    failure only prints. *)
Definition git_commit_and_push (filepath : string) : M unit :=
  print (GitCommitPush filepath).

(** The body of the [for] loop of [run], for the items from the [i]-th. *)
Fixpoint process_items (i n : nat) (foods : list string) (filepaths : list string)
  : M (list string) :=
  match foods with
  | [] => ret filepaths
  | food_description :: rest =>
      print (ProcessingItem i n food_description);;;
      nutrition <- query_llm food_description;;
      filepath <- save_to_file food_description nutrition;;
      print (Added (calories nutrition));;;
      process_items (S i) n rest (filepaths ++ [filepath])
  end.

(** [run], up to the loop: the entries and the status of the day are
    shown and the food descriptions obtained. *)
Definition run_prologue (food_descriptions : option (list string)) : M (list string) :=
  display_existing_entries;;;
  cr <- calculate_remaining_calories;;
  let '(consumed, remaining) := cr in
  (if Qltb 0 consumed then
     print (CurrentStatus consumed (daily_limit self));;;
     print (RemainingNow remaining)
   else ret tt);;;
  get_user_input food_descriptions.

(** [run], after the loop: the summary, and the commit when something
    was saved. *)
Definition run_epilogue (food_descriptions filepaths : list string) : M unit :=
  cr <- calculate_remaining_calories;;
  let '(consumed, remaining) := cr in
  display_daily_summary consumed remaining;;;
  match filepaths with
  | first :: _ =>
      print (CommittingAll (length food_descriptions));;;
      git_commit_and_push first
  | [] => ret tt
  end.

(** [run]: everything is inside one [try]; [except Exception] reports
    the error and the method returns.  ([KeyboardInterrupt] is not
    modelled.) *)
Definition run (food_descriptions : option (list string)) : M unit :=
  try_except
    (food_descriptions <- run_prologue food_descriptions;;
     filepaths <- process_items 1 (length food_descriptions) food_descriptions [];;
     run_epilogue food_descriptions filepaths)
    (fun _ => true)
    (fun e => print (ErrorReport e)).

(** The file of a day. *)
Definition day_path (date_str : string) : string :=
  path_join (tracker_dir self) (date_str +:+ ".json").

End Tracker.

(** ** Entries as the ledger holds them *)

Record FoodEntry : Type := mkFoodEntry {
  timestamp : string;
  description : string;
  nutrition : Nutrition
}.

Definition entry_json (e : FoodEntry) : json :=
  JObj [("timestamp", JStr (timestamp e)); ("food", JStr (description e));
        ("nutrition", nutrition_json (nutrition e))].

(** The record of a day as [save_to_file] writes it. *)
Definition ledger_json (date_str : string) (entries : list FoodEntry) (total : Q) : json :=
  JObj [("entries", JArr (entry_json <$> entries)); ("total_calories", JNum total);
        ("date", JStr date_str)].

(** The sum of the calories of a list of entries. *)
Definition total_calories (entries : list FoodEntry) : Q :=
  foldr (fun e acc => calories (nutrition e) + acc)%Q 0%Q entries.

(** ** Sums of floats *)

(** What the program computes with floats: the built-in [sum], which starts
    from 0 and takes the values one by one ([partial] is what it holds
    between two values: the rounded sum so far, with its correction where
    the summation is compensated), and the subtraction.  Each result is a
    float again, the nearest to the exact one or another: the model leaves
    open which. *)
Record arithmetic : Type := mkArithmetic {
  partial : Type;
  sum_start : partial;
  sum_add : partial -> Q -> partial;
  sum_result : partial -> Q;
  minus : Q -> Q -> Q
}.

(** [sum(values)] *)
Definition py_sum (A : arithmetic) (values : list Q) : Q :=
  sum_result A (fold_left (sum_add A) values (sum_start A)).

(** The arithmetic without rounding. *)
Definition exact : arithmetic := mkArithmetic Q 0%Q Qplus id Qminus.

(** The calories of entries, in their order. *)
Definition calories_of (entries : list FoodEntry) : list Q :=
  (fun e => calories (nutrition e)) <$> entries.

(** The functions of the program that add floats, for any arithmetic. *)
Module Rounded.
Section WithArithmetic.

Variable A : arithmetic.
Variable E : environment.
Variable self : CalorieTracker.

(** [sum(e["nutrition"]["calories"] for e in entries)]: the values are
    read and added one by one; the first entry that cannot be read or
    added raises. *)
Fixpoint sum_calories_from (acc : partial A) (entries : list json) : result Q :=
  match entries with
  | [] => Ok (sum_result A acc)
  | e :: rest =>
      n <-? subscript e "nutrition";
      c <-? subscript n "calories";
      match as_number c with
      | Some q => sum_calories_from (sum_add A acc q) rest
      | None => Raise TypeError
      end
  end.

Definition sum_calories (entries : list json) : result Q :=
  sum_calories_from (sum_start A) entries.

Definition save_to_file (food_description : string) (nutrition : Nutrition) : M string :=
  today <- ask (now E);;
  let date_str := strftime_ymd today in
  let filename := date_str +:+ ".json" in
  let filepath := path_join (tracker_dir self) filename in
  existing_entries <- load_daily_data self date_str;;
  let entry := JObj [("timestamp", JStr (isoformat today));
                     ("food", JStr food_description);
                     ("nutrition", nutrition_json nutrition)] in
  existing_entries <- lift (list_append existing_entries entry);;
  total_calories <- lift (sum_calories existing_entries);;
  let data := JObj [("entries", JArr existing_entries);
                    ("total_calories", JNum total_calories);
                    ("date", JStr date_str)] in
  write_file filepath (Encoded data);;;
  print (Saved filepath);;;
  print (TotalEntries (length existing_entries));;;
  ret filepath.

Definition calculate_remaining_calories : M (Q * Q) :=
  today <- ask (now E);;
  let date_str := strftime_ymd today in
  existing_entries <- load_daily_data self date_str;;
  entries <- lift (iterate existing_entries);;
  consumed <- lift (sum_calories entries);;
  let remaining := minus A (inject_Z (daily_limit self)) consumed in
  ret (consumed, remaining).

End WithArithmetic.
End Rounded.

(** The ledger of the day [date_str] holds [entries]: there is no file, or
    one that cannot be decoded, and no entry; or the file is a record of
    these entries. *)
Definition holds_entries (self : CalorieTracker) (date_str : string)
    (w : world) (entries : list FoodEntry) : Prop :=
  (files w !! day_path self date_str = None /\ entries = [])
  \/ (files w !! day_path self date_str = Some Undecodable /\ entries = [])
  \/ (exists total, files w !! day_path self date_str
                     = Some (Encoded (ledger_json date_str entries total))).

(** Successive calls of [save_to_file]. *)
Fixpoint appends (E : environment) (self : CalorieTracker)
    (items : list (string * Nutrition)) : M unit :=
  match items with
  | [] => ret tt
  | (food_description, n) :: rest =>
      save_to_file E self food_description n;;; appends E self rest
  end.

(** The entries these calls make, the first at the [k]-th reading of the
    clock. *)
Fixpoint recorded (E : environment) (k : nat) (items : list (string * Nutrition))
    : list FoodEntry :=
  match items with
  | [] => []
  | (food_description, n) :: rest =>
      mkFoodEntry (isoformat (now E k)) food_description n :: recorded E (S k) rest
  end.

(** An item of a day as it was saved: the time of the save, the
    description and the estimate. *)
Definition entry_at (x : datetime * (string * Nutrition)) : FoodEntry :=
  mkFoodEntry (isoformat (fst x)) (fst (snd x)) (snd (snd x)).

(** The items saved at the readings [k], [k + step], ... of the clock. *)
Fixpoint clocked (E : environment) (k step : nat) (items : list (string * Nutrition))
    : list (datetime * (string * Nutrition)) :=
  match items with
  | [] => []
  | x :: rest => (now E k, x) :: clocked E (k + step) step rest
  end.

(** The lines [display_existing_entries] prints for such items, numbered
    from [i]. *)
Fixpoint shown_entries (i : nat) (items : list (datetime * (string * Nutrition)))
    : list line :=
  match items with
  | [] => []
  | (t, (food_description, n)) :: rest =>
      ExistingEntry i (pad 2 (hour t) +:+ ":" +:+ pad 2 (minute t)) (JStr food_description)
      :: ExistingNutrition (proteins n) (carbs n) (fat n) (calories n)
      :: shown_entries (S i) rest
  end.

(** [s.strip()] on the characters. *)
Definition strip_chars (s : list ascii) : list ascii :=
  rev (lstrip (rev (lstrip s))).

(** The request [query_llm] sends for a food description. *)
Definition payload_of (food_description : string) : json :=
  JObj [("model", JStr "qwen3:8b"); ("prompt", JStr (prompt_of food_description));
        ("stream", JBool false)].

(** ** A concrete outside, for examples *)

Module Sample.

(** The prompt of a request. *)
Definition prompt_in (payload : json) : string :=
  match payload with
  | JObj [_; (_, JStr prompt); _] => prompt
  | _ => ""
  end.

(** A clock that stays on 4 November 2025, one minute per reading; a
    service that knows apples and rice, has no number to give for a stew
    and is down for soup. *)
Definition outside : environment :=
  mkEnvironment
    (fun k => mkDatetime 2025 11 4 12 k 0 2500)
    (fun _ _ payload =>
       let asked := prompt_in payload in
       if bool_decide (asked = prompt_of "1 apple") then
         Body (JObj [("response", JStr "0.5 25 0.3 95")])
       else if bool_decide (asked = prompt_of "1 cup rice") then
         Body (JObj [("response", JStr "Protein 4.3 g, carbs 45 g, fat 0.4 g: 205.5 kcal")])
       else if bool_decide (asked = prompt_of "mystery stew") then
         Body (JObj [("response", JStr "I cannot tell without the recipe.")])
       else RequestFailed (MsgBuiltin "Connection refused"))
    (fun _ => "").

Definition tracker : CalorieTracker := init None None.

Definition today : string := "25-11-04".

Definition empty_world : world := mkWorld ∅ [] 0.

Definition apple : Nutrition := mkNutrition (1 # 2) (25 # 1) (3 # 10) (95 # 1).
Definition rice : Nutrition := mkNutrition (43 # 10) (45 # 1) (2 # 5) (411 # 2).

(** The nearest integer to [n / d], the even one of two equally near
    ([d] positive). *)
Definition nearest_even (n d : Z) : Z :=
  let q := (n / d)%Z in
  match (2 * (n mod d) ?= d)%Z with
  | Lt => q
  | Gt => (q + 1)%Z
  | Eq => if Z.even q then q else (q + 1)%Z
  end.

(** The float nearest to a positive [n / d]: a multiple of [2^e] with 53
    bits, where [2^(e + 52) <= n / d < 2^(e + 53)].  (For the normal
    numbers; the examples use no other.) *)
Definition nearest_float_pos (n d : Z) : Q :=
  let l := (Z.log2 n - Z.log2 d)%Z in
  let above := if (0 <=? l)%Z then (d * 2 ^ l <=? n)%Z else (d <=? n * 2 ^ (- l))%Z in
  let e := ((if above then l else l - 1) - 52)%Z in
  if (0 <=? e)%Z then inject_Z (nearest_even n (d * 2 ^ e) * 2 ^ e)
  else Qred (Qmake (nearest_even (n * 2 ^ (- e)) d) (Z.to_pos (2 ^ (- e)))).

Definition nearest_float (x : Q) : Q :=
  match Qnum x with
  | Z0 => 0%Q
  | Zpos n => nearest_float_pos (Zpos n) (Zpos (Qden x))
  | Zneg n => Qopp (nearest_float_pos (Zpos n) (Zpos (Qden x)))
  end.

(** Binary floating point with 53 bits: every result is rounded to the
    nearest float, and [sum] adds from the left. *)
Definition binary64 : arithmetic :=
  mkArithmetic Q 0%Q (fun acc x => nearest_float (acc + x)) id
    (fun a b => nearest_float (a - b)).

(** A world whose file of the day decodes to a list, not to a record. *)
Definition list_world : world :=
  mkWorld {[ "tracker/25-11-04.json" := Encoded (JArr []) ]} [] 0.

End Sample.

(** The failure of the second [raise] of [parse_nutritional_data]. *)
Definition is_failed_to_parse {A} (r : result A) : bool :=
  match r with
  | Raise (ValueError (MsgFailedToParse _)) => true
  | _ => false
  end.

(** * Properties *)

(** ** The scan of the regular expression *)

Module RegexFacts.
Import Regex.

Lemma digits_all (s : list ascii) : Forall (fun c => is_digit c = true) (digits s).
Proof.
  induction s as [|c s IH]; simpl; [constructor|].
  destruct (is_digit c) eqn:Hc; [constructor; assumption | constructor].
Qed.

Lemma digits_split (s : list ascii) : digits s ++ drop (length (digits s)) s = s.
Proof.
  induction s as [|c s IH]; simpl; [reflexivity|].
  destruct (is_digit c); simpl; [f_equal; exact IH | reflexivity].
Qed.

Lemma digits_stop (s : list ascii) :
  match drop (length (digits s)) s with
  | c :: _ => is_digit c = false
  | [] => True
  end.
Proof.
  induction s as [|c s IH]; simpl; [exact I|].
  destruct (is_digit c) eqn:Hc; simpl; [exact IH | exact Hc].
Qed.

Lemma digits_app (d r : list ascii) :
  Forall (fun c => is_digit c = true) d ->
  match r with c :: _ => is_digit c = false | [] => True end ->
  digits (d ++ r) = d.
Proof.
  intros Hd Hr. induction Hd as [|c d Hc _ IH]; simpl.
  - destruct r as [|c r]; simpl; [reflexivity | now rewrite Hr].
  - rewrite Hc. now f_equal.
Qed.

Lemma digits_id (d : list ascii) :
  Forall (fun c => is_digit c = true) d -> digits d = d.
Proof.
  intros Hd. rewrite <- (app_nil_r d) at 1. now apply digits_app.
Qed.

Lemma dot_not_digit (c : ascii) : is_dot c = true -> is_digit c = false.
Proof.
  unfold is_dot. intros H. apply bool_decide_eq_true in H. now subst c.
Qed.

(** A match is a prefix of the text, of one of the two shapes. *)
Lemma match_number_spec (s m : list ascii) :
  match_number s = Some m -> number_shape m /\ m ++ drop (length m) s = s.
Proof.
  unfold match_number. intros H.
  pose proof (digits_all s) as Hall. pose proof (digits_split s) as Hsplit.
  destruct (digits s) as [|c d1] eqn:Hd; [discriminate|].
  destruct (drop (length (c :: d1)) s) as [|x r] eqn:Hr.
  - injection H as <-. split; [now constructor|]. now rewrite Hr.
  - destruct (is_dot x) eqn:Hx.
    + injection H as <-. apply bool_decide_eq_true in Hx. subst x. split.
      * apply (shape_point (c :: d1)); [discriminate | assumption | apply digits_all].
      * assert (Hs : s = ((c :: d1) ++ "."%char :: digits r)
                          ++ drop (length (digits r)) r).
        { rewrite <- Hsplit. simpl. f_equal. rewrite <- app_assoc. simpl.
          now rewrite digits_split. }
        rewrite Hs at 1 2. now rewrite drop_app_length.
    + injection H as <-. split; [now constructor|]. now rewrite Hr.
Qed.

Lemma match_number_none (s : list ascii) :
  match_number s = None <-> digits s = [].
Proof.
  unfold match_number. destruct (digits s) as [|c d] eqn:Hd; [tauto|].
  destruct (drop _ s) as [|x r]; [|destruct (is_dot x)]; split; discriminate.
Qed.

Lemma match_number_nonempty (s m : list ascii) :
  match_number s = Some m -> (0 < length m)%nat.
Proof.
  intros [Hm _]%match_number_spec.
  destruct Hm as [d Hd _|d1 d2 Hd _ _]; destruct d || destruct d1;
    simpl; try congruence; lia.
Qed.

(** Passing over [k] characters and scanning is scanning what is left. *)
Lemma findall_from_drop (k : nat) (s : list ascii) :
  findall_from k s = findall_from 0 (drop k s).
Proof.
  revert k. induction s as [|c s IH]; intros [|k]; simpl; try reflexivity.
  apply IH.
Qed.

(** The scan, as the search loop of [re.findall]: at each position try
    the pattern; on a match continue after it, otherwise at the next
    character. *)
Lemma findall_from_scan (s : list ascii) :
  findall_from 0 s =
    match s with
    | [] => []
    | _ :: s' =>
        match match_number s with
        | Some m => m :: findall_from 0 (drop (length m) s)
        | None => findall_from 0 s'
        end
    end.
Proof.
  destruct s as [|c s]; [reflexivity|]. simpl findall_from.
  destruct (match_number (c :: s)) as [m|] eqn:Hm; [|reflexivity].
  f_equal. rewrite findall_from_drop.
  pose proof (match_number_nonempty _ _ Hm) as Hlen.
  destruct (length m) as [|n]; [lia|]. simpl. now rewrite Nat.sub_0_r.
Qed.

Lemma findall_from_shape (k : nat) (s : list ascii) :
  Forall number_shape (findall_from k s).
Proof.
  revert k. induction s as [|c s IH]; intros k; simpl; [constructor|].
  destruct k as [|k]; [|apply IH].
  destruct (match_number (c :: s)) as [m|] eqn:Hm; [|apply IH].
  constructor; [|apply IH]. now apply match_number_spec in Hm.
Qed.

End RegexFacts.

(** ** [float] on what the pattern matches *)

Module FloatFacts.
Import Regex RegexFacts Float.

Lemma sign_digit (c : ascii) (r : list ascii) :
  is_digit c = true -> sign (c :: r) = (1%Z, c :: r).
Proof.
  intros Hc. unfold sign.
  destruct (ascii_dec c "-") as [->|Hm]; [discriminate|].
  destruct (ascii_dec c "+") as [->|Hp]; [discriminate|].
  destruct c as [[] [] [] [] [] [] [] []]; try reflexivity; congruence.
Qed.

Lemma digit_value_nonneg (c : ascii) : (0 <= digit_value c)%Z.
Proof. unfold digit_value. destruct (Ascii.is_nat c); lia. Qed.

Lemma digits_value_nonneg (d : list ascii) : (0 <= digits_value d)%Z.
Proof.
  unfold digits_value.
  assert (H : forall acc, (0 <= acc)%Z ->
    (0 <= fold_left (fun a c => 10 * a + digit_value c) d acc)%Z).
  { induction d as [|c d IH]; intros acc Hacc; simpl; [exact Hacc|].
    apply IH. pose proof (digit_value_nonneg c). lia. }
  apply H. lia.
Qed.

Lemma scale10_nonneg (m k : Z) : (0 <= m)%Z -> (0 <= scale10 m k)%Q.
Proof.
  intros Hm. unfold scale10, Qle. destruct k as [|p|p]; simpl; lia.
Qed.

Lemma float_literal (d1 d2 : list ascii) (point : bool) :
  d1 <> [] ->
  Forall (fun c => is_digit c = true) d1 ->
  Forall (fun c => is_digit c = true) d2 ->
  (point = false -> d2 = []) ->
  float (string_of_list_ascii (d1 ++ (if point then "."%char :: d2 else []))) =
    Ok (literal_value d1 d2).
Proof.
  intros Hne H1 H2 Hp. unfold float, literal_value.
  rewrite list_ascii_of_string_of_list_ascii.
  destruct d1 as [|c d1]; [congruence|].
  inversion H1 as [|? ? Hc H1']; subst.
  change ((c :: d1) ++ ?r) with (c :: (d1 ++ r)).
  rewrite sign_digit by exact Hc.
  change (c :: (d1 ++ ?r)) with ((c :: d1) ++ r).
  set (r := if point then "."%char :: d2 else []).
  assert (Hd : digits ((c :: d1) ++ r) = c :: d1).
  { apply digits_app; [exact H1|]. subst r. now destruct point. }
  rewrite Hd. rewrite drop_app_length. subst r.
  destruct point.
  - change (is_dot ".") with true. cbv iota.
    rewrite (digits_id d2) by exact H2. rewrite drop_all. reflexivity.
  - rewrite (Hp eq_refl). reflexivity.
Qed.

Lemma literal_value_nonneg (d1 d2 : list ascii) : (0 <= literal_value d1 d2)%Q.
Proof.
  unfold literal_value. rewrite Qred_correct. apply scale10_nonneg.
  pose proof (digits_value_nonneg (d1 ++ d2)). lia.
Qed.

(** [float] accepts every match of the pattern, with a value that is not
    negative. *)
Lemma float_shape (m : list ascii) :
  number_shape m ->
  exists q, float (string_of_list_ascii m) = Ok q /\ (0 <= q)%Q.
Proof.
  intros [d Hne Hd|d1 d2 Hne H1 H2].
  - exists (literal_value d []). split; [|apply literal_value_nonneg].
    rewrite <- (app_nil_r d) at 1.
    now apply (float_literal d [] false).
  - exists (literal_value d1 d2). split; [|apply literal_value_nonneg].
    now apply (float_literal d1 d2 true).
Qed.

Lemma float_findall (reply n : string) :
  n ∈ findall reply -> exists q, float n = Ok q /\ (0 <= q)%Q.
Proof.
  unfold findall. intros (m & -> & Hm)%list_elem_of_fmap.
  apply float_shape.
  pose proof (findall_from_shape 0 (list_ascii_of_string reply)) as Hall.
  rewrite Forall_forall in Hall. now apply Hall.
Qed.

End FloatFacts.

(** ** The parser of the estimator's reply *)

Section Parser.
Import Regex RegexFacts Float FloatFacts.

Lemma list_ascii_of_string_app (a b : string) :
  list_ascii_of_string (a +:+ b) = list_ascii_of_string a ++ list_ascii_of_string b.
Proof. induction a as [|c a IH]; simpl; [reflexivity | now rewrite <- IH]. Qed.

Lemma digits_sep (a b : list ascii) (c : ascii) :
  is_digit c = false -> digits (a ++ c :: b) = digits a.
Proof.
  intros Hc. induction a as [|x a IH]; simpl; [now rewrite Hc|].
  destruct (is_digit x); [now f_equal | reflexivity].
Qed.

(** A character that is neither a digit nor a dot ends any match that
    reaches it. *)
Lemma match_number_sep (a b : list ascii) (c : ascii) :
  is_digit c = false -> is_dot c = false ->
  a <> [] -> match_number (a ++ c :: b) = match_number a.
Proof.
  intros Hc Hdot Ha. unfold match_number. rewrite digits_sep by exact Hc.
  destruct (digits a) as [|x d] eqn:Hd; [reflexivity|].
  assert (Hle : (length (x :: d) <= length a)%nat).
  { rewrite <- (digits_split a), Hd, length_app. lia. }
  rewrite drop_app_le by exact Hle.
  destruct (drop (length (x :: d)) a) as [|y r]; simpl.
  - now rewrite Hdot.
  - destruct (is_dot y); [|reflexivity]. now rewrite digits_sep.
Qed.

Lemma findall_from_sep (k : nat) (a b : list ascii) (c : ascii) :
  is_digit c = false -> is_dot c = false -> (k <= length a)%nat ->
  findall_from k (a ++ c :: b) = findall_from k a ++ findall_from 0 b.
Proof.
  intros Hc Hdot. revert k. induction a as [|x a IH]; intros k Hk.
  - simpl in Hk. assert (k = 0%nat) as -> by lia. simpl.
    unfold match_number. simpl. now rewrite Hc.
  - destruct k as [|k]; [|simpl in *; apply IH; lia].
    change ((x :: a) ++ c :: b) with (x :: (a ++ c :: b)).
    simpl findall_from.
    change (x :: (a ++ c :: b)) with ((x :: a) ++ c :: b).
    rewrite match_number_sep by (assumption || discriminate).
    destruct (match_number (x :: a)) as [m|] eqn:Hm; [|apply IH; lia].
    simpl. f_equal. apply IH.
    apply match_number_spec in Hm as [_ Hm].
    apply (f_equal length) in Hm. rewrite length_app in Hm. simpl in Hm. lia.
Qed.

(** Text added after a separating character adds its numbers after those
    of the reply. *)
Lemma findall_sep (reply more : string) (c : ascii) :
  is_digit c = false -> is_dot c = false ->
  findall (reply +:+ String c more) = findall reply ++ findall more.
Proof.
  intros Hc Hdot. unfold findall. rewrite list_ascii_of_string_app. simpl.
  rewrite findall_from_sep by (assumption || lia). now rewrite fmap_app.
Qed.

Lemma parse_of_four (reply n0 n1 n2 n3 : string) (rest : list string)
    (p c f k : Q) :
  findall reply = n0 :: n1 :: n2 :: n3 :: rest ->
  float n0 = Ok p -> float n1 = Ok c -> float n2 = Ok f -> float n3 = Ok k ->
  parse_nutritional_data reply = Ok (mkNutrition p c f k).
Proof.
  intros Hfind H0 H1 H2 H3. unfold parse_nutritional_data. rewrite Hfind.
  simpl. now rewrite H0, H1, H2, H3.
Qed.

Lemma parse_of_fewer (reply : string) :
  (length (findall reply) < 4)%nat ->
  parse_nutritional_data reply =
    Raise (ValueError (MsgExpected4 (length (findall reply)) (findall reply))).
Proof.
  intros Hlt. unfold parse_nutritional_data.
  apply Nat.ltb_lt in Hlt. now rewrite Hlt.
Qed.

(** With four numbers or more the parser returns an estimate. *)
Lemma parse_total (reply : string) :
  (4 <= length (findall reply))%nat ->
  exists n0 n1 n2 n3 rest p c f k,
    findall reply = n0 :: n1 :: n2 :: n3 :: rest /\
    float n0 = Ok p /\ float n1 = Ok c /\ float n2 = Ok f /\ float n3 = Ok k /\
    (0 <= p)%Q /\ (0 <= c)%Q /\ (0 <= f)%Q /\ (0 <= k)%Q /\
    parse_nutritional_data reply = Ok (mkNutrition p c f k).
Proof.
  intros Hlen.
  destruct (findall reply) as [|n0 [|n1 [|n2 [|n3 rest]]]] eqn:Hfind;
    simpl in Hlen; try lia.
  assert (Hin : forall n, n ∈ [n0; n1; n2; n3] -> n ∈ findall reply).
  { intros n Hn. rewrite Hfind.
    change (n0 :: n1 :: n2 :: n3 :: rest) with ([n0; n1; n2; n3] ++ rest).
    apply elem_of_app. now left. }
  destruct (float_findall reply n0) as (p & Hp & Hp0); [apply Hin; set_solver|].
  destruct (float_findall reply n1) as (c & Hc & Hc0); [apply Hin; set_solver|].
  destruct (float_findall reply n2) as (f & Hf & Hf0); [apply Hin; set_solver|].
  destruct (float_findall reply n3) as (k & Hk & Hk0); [apply Hin; set_solver|].
  exists n0, n1, n2, n3, rest, p, c, f, k. repeat split; try assumption.
  now apply (parse_of_four reply n0 n1 n2 n3 rest).
Qed.

End Parser.

Example findall_scenario :
  Regex.findall "Protein: 12.5g, Carbs: 40g, Fat: 3g, Calories: 310"
  = ["12.5"; "40"; "3"; "310"].
Proof. reflexivity. Qed.

Example findall_dots :
  Regex.findall "1..2 .5 3.x 1.2.3" = ["1."; "2"; "5"; "3."; "1.2"; "3"].
Proof. reflexivity. Qed.

Example float_literals :
  Float.float "12.5" = Ok (25 # 2)%Q /\ Float.float "-1.25e1" = Ok (-25 # 2)%Q
  /\ Float.float "5." = Ok (5 # 1)%Q /\ Float.float ".5" = Ok (1 # 2)%Q.
Proof. repeat split; reflexivity. Qed.

Example float_rejects :
  is_ok (Float.float ".") = false /\ is_ok (Float.float "1.2.3") = false
  /\ is_ok (Float.float "") = false /\ is_ok (Float.float "12g") = false.
Proof. repeat split; reflexivity. Qed.

(** The scenario of the specification: the reply
    "Protein: 12.5g, Carbs: 40g, Fat: 3g, Calories: 310" gives the estimate
    (12.5, 40, 3, 310). *)
Example parse_scenario :
  parse_nutritional_data "Protein: 12.5g, Carbs: 40g, Fat: 3g, Calories: 310"
  = Ok (mkNutrition (25 # 2) (40 # 1) (3 # 1) (310 # 1)).
Proof. reflexivity. Qed.

(** C1. For every reply in which the pattern finds at least four numbers,
    [parse_nutritional_data] returns the estimate whose proteins, carbs, fat
    and calories are the values of the first, second, third and fourth
    match; the matches after the fourth have no effect: any reply with the
    same first four matches gives the same estimate, and so does the reply
    followed by any further text. *)
Theorem parse_first_four_in_order (reply n0 n1 n2 n3 : string) (rest : list string) :
  Regex.findall reply = n0 :: n1 :: n2 :: n3 :: rest ->
  exists p c f k,
    Float.float n0 = Ok p /\ Float.float n1 = Ok c /\
    Float.float n2 = Ok f /\ Float.float n3 = Ok k /\
    parse_nutritional_data reply = Ok (mkNutrition p c f k) /\
    (forall (reply' : string) (rest' : list string),
       Regex.findall reply' = n0 :: n1 :: n2 :: n3 :: rest' ->
       parse_nutritional_data reply' = Ok (mkNutrition p c f k)) /\
    (forall (sep : ascii) (more : string),
       Regex.is_digit sep = false -> Regex.is_dot sep = false ->
       parse_nutritional_data (reply +:+ String sep more) = Ok (mkNutrition p c f k)).
Proof.
  intros Hfind.
  destruct (parse_total reply) as (m0 & m1 & m2 & m3 & r & p & c & f & k & Hm & H).
  { rewrite Hfind. simpl. lia. }
  rewrite Hfind in Hm. injection Hm as <- <- <- <- <-.
  destruct H as (H0 & H1 & H2 & H3 & _ & _ & _ & _ & Hparse).
  exists p, c, f, k. repeat split; try assumption.
  - intros reply' rest' Hfind'.
    now apply (parse_of_four reply' n0 n1 n2 n3 rest').
  - intros sep more Hdigit Hdot.
    apply (parse_of_four _ n0 n1 n2 n3 (rest ++ Regex.findall more)); try assumption.
    rewrite findall_sep by assumption. now rewrite Hfind.
Qed.

Lemma parse_first_four_in_order_witness :
  Regex.findall "Protein: 12.5g, Carbs: 40g, Fat: 3g, Calories: 310 (15.5% of 2000)"
    = ["12.5"; "40"; "3"; "310"; "15.5"; "2000"]
  /\ parse_nutritional_data
       "Protein: 12.5g, Carbs: 40g, Fat: 3g, Calories: 310 (15.5% of 2000)"
     = Ok (mkNutrition (25 # 2) (40 # 1) (3 # 1) (310 # 1)).
Proof.
  split; [reflexivity|].
  destruct (parse_first_four_in_order
              "Protein: 12.5g, Carbs: 40g, Fat: 3g, Calories: 310 (15.5% of 2000)"
              "12.5" "40" "3" "310" ["15.5"; "2000"])
    as (p & c & f & k & H0 & H1 & H2 & H3 & Hparse & _).
  - reflexivity.
  - vm_compute in H0, H1, H2, H3.
    injection H0 as <-. injection H1 as <-. injection H2 as <-. injection H3 as <-.
    exact Hparse.
Defined.

(** C4. [parse_nutritional_data] fails with "Expected 4 numbers from LLM"
    exactly when the pattern finds fewer than four numbers in the reply,
    and it has no other failure. *)
Theorem parse_fails_iff_fewer_than_four (reply : string) :
  ((length (Regex.findall reply) < 4)%nat <->
   parse_nutritional_data reply =
     Raise (ValueError (MsgExpected4 (length (Regex.findall reply)) (Regex.findall reply))))
  /\ (forall e, parse_nutritional_data reply = Raise e ->
        (length (Regex.findall reply) < 4)%nat).
Proof.
  assert (Hfail : forall e, parse_nutritional_data reply = Raise e ->
                            (length (Regex.findall reply) < 4)%nat).
  { intros e He. destruct (Nat.lt_ge_cases (length (Regex.findall reply)) 4) as [|Hge];
      [assumption|].
    apply parse_total in Hge as (? & ? & ? & ? & ? & ? & ? & ? & ? & H).
    destruct H as (_ & _ & _ & _ & _ & _ & _ & _ & _ & Hparse). congruence. }
  split; [split|exact Hfail].
  - apply parse_of_fewer.
  - apply Hfail.
Qed.

Lemma parse_fails_iff_fewer_than_four_witness :
  parse_nutritional_data "about 250 kcal, 12 g protein; no more is known"
  = Raise (ValueError (MsgExpected4 2 ["250"; "12"])).
Proof.
  apply (proj1 (proj1 (parse_fails_iff_fewer_than_four
           "about 250 kcal, 12 g protein; no more is known"))).
  vm_compute. lia.
Defined.

(** C9. Every estimate [parse_nutritional_data] returns has proteins, carbs,
    fat and calories that are not negative, whatever the reply, minus
    signs included: the pattern never takes a sign into a match. *)
Theorem parse_nonnegative (reply : string) (n : Nutrition) :
  parse_nutritional_data reply = Ok n ->
  (0 <= proteins n)%Q /\ (0 <= carbs n)%Q /\ (0 <= fat n)%Q /\ (0 <= calories n)%Q.
Proof.
  intros Hparse.
  destruct (Nat.lt_ge_cases (length (Regex.findall reply)) 4) as [Hlt|Hge].
  - rewrite parse_of_fewer in Hparse by exact Hlt. discriminate.
  - apply parse_total in Hge as (? & ? & ? & ? & ? & p & c & f & k & H).
    destruct H as (_ & _ & _ & _ & _ & Hp & Hc & Hf & Hk & Hparse').
    rewrite Hparse' in Hparse. injection Hparse as <-. simpl. tauto.
Qed.

Lemma parse_nonnegative_witness :
  parse_nutritional_data "-5 -3.5 -2 -100" = Ok (mkNutrition (5 # 1) (7 # 2) (2 # 1) (100 # 1))
  /\ (0 <= 5 # 1)%Q /\ (0 <= 7 # 2)%Q /\ (0 <= 2 # 1)%Q /\ (0 <= 100 # 1)%Q.
Proof.
  split; [reflexivity|].
  apply (parse_nonnegative "-5 -3.5 -2 -100" (mkNutrition (5 # 1) (7 # 2) (2 # 1) (100 # 1))).
  reflexivity.
Defined.

(** C10. Every substring the pattern matches is accepted by [float]; so
    when four numbers or more are found the four conversions succeed and
    the failure "Failed to parse nutritional data" never happens. *)
Theorem conversions_always_succeed (reply : string) :
  Forall (fun n => is_ok (Float.float n) = true) (Regex.findall reply)
  /\ is_failed_to_parse (parse_nutritional_data reply) = false.
Proof.
  split.
  - apply Forall_forall. intros n Hn.
    destruct (FloatFacts.float_findall reply n Hn) as (q & -> & _). reflexivity.
  - destruct (Nat.lt_ge_cases (length (Regex.findall reply)) 4) as [Hlt|Hge].
    + now rewrite parse_of_fewer.
    + apply parse_total in Hge as (? & ? & ? & ? & ? & ? & ? & ? & ? & H).
      destruct H as (_ & _ & _ & _ & _ & _ & _ & _ & _ & ->). reflexivity.
Qed.

(** What the pattern takes at the head of a text: the digits up to a dot,
    the dot and the digits after it. *)
Lemma match_number_point (d1 d2 rest : list ascii) :
  d1 <> [] ->
  Forall (fun c => Regex.is_digit c = true) d1 ->
  Forall (fun c => Regex.is_digit c = true) d2 ->
  match rest with c :: _ => Regex.is_digit c = false | [] => True end ->
  Regex.match_number (d1 ++ "."%char :: d2 ++ rest) = Some (d1 ++ "."%char :: d2).
Proof.
  intros Hne H1 H2 Hrest. unfold Regex.match_number.
  rewrite (RegexFacts.digits_app d1) by (exact H1 || reflexivity).
  destruct d1 as [|c d1]; [congruence|].
  rewrite drop_app_length. change (Regex.is_dot ".") with true. cbv iota.
  now rewrite (RegexFacts.digits_app d2 rest).
Qed.

(** The digits alone, when no dot follows them. *)
Lemma match_number_integer (d1 rest : list ascii) :
  d1 <> [] ->
  Forall (fun c => Regex.is_digit c = true) d1 ->
  match rest with
  | c :: _ => Regex.is_digit c = false /\ Regex.is_dot c = false
  | [] => True
  end ->
  Regex.match_number (d1 ++ rest) = Some d1.
Proof.
  intros Hne H1 Hrest. unfold Regex.match_number.
  rewrite (RegexFacts.digits_app d1 rest) by (exact H1 || (destruct rest; tauto)).
  destruct d1 as [|c d1]; [congruence|].
  rewrite drop_app_length. destruct rest as [|x rest]; [reflexivity|].
  destruct Hrest as [_ Hdot]. now rewrite Hdot.
Qed.

Lemma findall_from_after_match (m rest : list ascii) :
  Regex.match_number (m ++ rest) = Some m ->
  Regex.findall_from 0 (m ++ rest) = m :: Regex.findall_from 0 rest.
Proof.
  intros Hm. rewrite RegexFacts.findall_from_scan.
  pose proof (RegexFacts.match_number_nonempty _ _ Hm) as Hlen.
  destruct m as [|c m]; [simpl in Hlen; lia|].
  change ((c :: m) ++ rest) with (c :: (m ++ rest)) in *.
  rewrite Hm. change (c :: (m ++ rest)) with ((c :: m) ++ rest).
  now rewrite drop_app_length.
Qed.

(** C8 (as amended). The extraction scans the reply from the left and
    collects the matches of a decimal-number pattern whose integer part is
    required and whose fractional part is optional.  Where digits stand,
    all of them are taken; when a dot follows, the dot and all the digits
    after it are taken too, and the scan resumes after the match; a
    character that is not a digit, a dot that no digit precedes included,
    is passed over.  So every substring collected is one digit or more,
    then possibly a dot and further digits; the reply "12.5" yields 12.5,
    and the reply ".5" yields the number 5. *)
Theorem extraction_requires_integer_part (reply : string) :
  (forall s : list ascii,
     Regex.findall_from 0 s =
       match s with
       | [] => []
       | _ :: s' =>
           match Regex.match_number s with
           | Some m => m :: Regex.findall_from 0 (drop (length m) s)
           | None => Regex.findall_from 0 s'
           end
       end)
  /\ (forall d1 d2 rest : list ascii,
        d1 <> [] ->
        Forall (fun c => Regex.is_digit c = true) d1 ->
        Forall (fun c => Regex.is_digit c = true) d2 ->
        match rest with c :: _ => Regex.is_digit c = false | [] => True end ->
        Regex.findall_from 0 (d1 ++ "."%char :: d2 ++ rest)
        = (d1 ++ "."%char :: d2) :: Regex.findall_from 0 rest)
  /\ (forall d1 rest : list ascii,
        d1 <> [] ->
        Forall (fun c => Regex.is_digit c = true) d1 ->
        match rest with
        | c :: _ => Regex.is_digit c = false /\ Regex.is_dot c = false
        | [] => True
        end ->
        Regex.findall_from 0 (d1 ++ rest) = d1 :: Regex.findall_from 0 rest)
  /\ (forall (c : ascii) (s : list ascii),
        Regex.is_digit c = false ->
        Regex.findall_from 0 (c :: s) = Regex.findall_from 0 s)
  /\ Forall (fun n => exists (d1 d2 : list ascii) (point : bool),
               d1 <> [] /\ Forall (fun c => Regex.is_digit c = true) d1 /\
               Forall (fun c => Regex.is_digit c = true) d2 /\
               n = string_of_list_ascii (d1 ++ (if point then "."%char :: d2 else [])))
            (Regex.findall reply)
  /\ Regex.findall "12.5" = ["12.5"]
  /\ Regex.findall ".5" = ["5"]
  /\ Float.float "5" = Ok (5 # 1)%Q.
Proof.
  split; [exact RegexFacts.findall_from_scan|].
  split.
  { intros d1 d2 rest Hne H1 H2 Hrest.
    pose proof (match_number_point d1 d2 rest Hne H1 H2 Hrest) as Hm.
    replace (d1 ++ "."%char :: d2 ++ rest) with ((d1 ++ "."%char :: d2) ++ rest) in *
      by (now rewrite <- app_assoc).
    now apply findall_from_after_match. }
  split.
  { intros d1 rest Hne H1 Hrest.
    apply findall_from_after_match. now apply match_number_integer. }
  split.
  { intros c s Hc. simpl. unfold Regex.match_number. simpl. now rewrite Hc. }
  split; [|repeat split; reflexivity].
  unfold Regex.findall. apply Forall_fmap.
  eapply Forall_impl; [apply (RegexFacts.findall_from_shape 0)|].
  intros m [d Hne Hd|d1 d2 Hne H1 H2]; simpl.
  - exists d, [], false. rewrite app_nil_r. repeat split; (assumption || constructor).
  - exists d1, d2, true. repeat split; assumption.
Qed.

(** In "3.75g" the digits, the dot and the digits after it make one
    number. *)
Lemma extraction_requires_integer_part_witness :
  Regex.findall_from 0 (list_ascii_of_string "3.75g")
  = list_ascii_of_string "3.75" :: Regex.findall_from 0 (list_ascii_of_string "g").
Proof.
  apply (proj1 (proj2 (extraction_requires_integer_part ""))
           ["3"%char] ["7"%char; "5"%char] ["g"%char]).
  - discriminate.
  - repeat constructor.
  - repeat constructor.
  - reflexivity.
Defined.

(** C8, as stated, fails: the reply ".5" does not yield the number 0.5. *)
Lemma no_integer_part_counterexample :
  ~ (exists (n : string) (q : Q),
       Regex.findall ".5" = [n] /\ Float.float n = Ok q /\ (q == 1 # 2)%Q).
Proof.
  intros (n & q & Hn & Hq & Heq).
  vm_compute in Hn. injection Hn as <-.
  vm_compute in Hq. injection Hq as <-.
  vm_compute in Heq. discriminate Heq.
Qed.

(** ** The ledger store *)

Section Ledger.

Variable E : environment.
Variable self : CalorieTracker.

(** Reading never writes. *)
Lemma load_daily_data_files (date_str : string) (w : world) :
  files (exec (load_daily_data self date_str) w) = files w
  /\ ticks (exec (load_daily_data self date_str) w) = ticks w.
Proof.
  unfold exec, load_daily_data, bind, lookup_file, try_except. simpl.
  destruct (files w !! _) as [[|j|]|]; simpl; try tauto.
  destruct j; simpl; tauto.
Qed.

Lemma load_absent (date_str : string) (w : world) :
  files w !! day_path self date_str = None ->
  load_daily_data self date_str w = (Ok (JArr []), w).
Proof.
  intros Hf. unfold load_daily_data, bind, lookup_file. fold (day_path self date_str).
  now rewrite Hf.
Qed.

Lemma load_undecodable (date_str : string) (w : world) :
  files w !! day_path self date_str = Some Undecodable ->
  load_daily_data self date_str w =
    (Ok (JArr []),
     mkWorld (files w)
       (stdout w ++ [WarnCouldNotRead (day_path self date_str) JSONDecodeError])
       (ticks w)).
Proof.
  intros Hf. unfold load_daily_data, bind, lookup_file. fold (day_path self date_str).
  now rewrite Hf.
Qed.

Lemma load_record (date_str : string) (w : world) (items : list (string * json)) :
  files w !! day_path self date_str = Some (Encoded (JObj items)) ->
  load_daily_data self date_str w =
    (Ok (from_option id (JArr []) (assoc "entries" items)), w).
Proof.
  intros Hf. unfold load_daily_data, bind, lookup_file. fold (day_path self date_str).
  now rewrite Hf.
Qed.

(** In a ledger that holds entries, reading gives them, in order. *)
Lemma load_holds (date_str : string) (w : world) (entries : list FoodEntry) :
  holds_entries self date_str w entries ->
  exists w',
    load_daily_data self date_str w = (Ok (JArr (entry_json <$> entries)), w')
    /\ files w' = files w /\ ticks w' = ticks w.
Proof.
  intros [[Hf ->]|[[Hf ->]|[total Hf]]].
  - exists w. now rewrite load_absent.
  - eexists. rewrite load_undecodable by exact Hf. simpl. auto.
  - exists w. unfold ledger_json in Hf. now rewrite (load_record _ _ _ Hf).
Qed.

(** The sum the program computes over entries is their total. *)
Lemma sum_calories_from_entries (acc : Q) (entries : list FoodEntry) :
  exists q, sum_calories_from acc (entry_json <$> entries) = Ok q
            /\ (q == acc + total_calories entries)%Q.
Proof.
  revert acc. induction entries as [|e entries IH]; intros acc; simpl.
  - exists acc. split; [reflexivity | ring].
  - destruct (IH (acc + calories (nutrition e))%Q) as (q & Hq & Heq).
    exists q. split; [exact Hq|]. rewrite Heq. ring.
Qed.

Lemma sum_calories_entries (entries : list FoodEntry) :
  exists q, sum_calories (entry_json <$> entries) = Ok q
            /\ (q == total_calories entries)%Q.
Proof.
  destruct (sum_calories_from_entries 0 entries) as (q & Hq & Heq).
  exists q. split; [exact Hq|]. rewrite Heq. ring.
Qed.

(** The entry [save_to_file] makes at the time [today]. *)
Lemma save_to_file_spec (food_description : string) (n : Nutrition) (w : world) :
  let today := now E (ticks w) in
  let date_str := strftime_ymd today in
  let entry := entry_json (mkFoodEntry (isoformat today) food_description n) in
  match save_to_file E self food_description n w with
  | (Ok path, w') =>
      exists (existing : list json) (total : Q) (w1 : world),
        path = day_path self date_str
        /\ load_daily_data self date_str
             (mkWorld (files w) (stdout w) (S (ticks w))) = (Ok (JArr existing), w1)
        /\ sum_calories (existing ++ [entry]) = Ok total
        /\ files w' = <[path := Encoded (JObj [("entries", JArr (existing ++ [entry]));
                                               ("total_calories", JNum total);
                                               ("date", JStr date_str)])]> (files w)
        /\ ticks w' = S (ticks w)
  | (Raise _, w') => files w' = files w
  end.
Proof.
  intros today date_str entry.
  unfold save_to_file, bind, ask. simpl.
  fold today. fold date_str.
  set (w0 := mkWorld (files w) (stdout w) (S (ticks w))).
  pose proof (load_daily_data_files date_str w0) as [Hfiles Hticks].
  unfold exec in Hfiles, Hticks.
  destruct (load_daily_data self date_str w0) as [[v|e] w1] eqn:Hload;
    simpl in Hfiles, Hticks; [|exact Hfiles].
  unfold lift.
  destruct v as [| | | |existing|]; simpl; try exact Hfiles.
  subst entry. unfold entry_json. simpl.
  match goal with
  | |- context [sum_calories ?l] => destruct (sum_calories l) as [total|e] eqn:Hsum
  end; simpl; [|exact Hfiles].
  exists existing, total, w1. rewrite Hfiles, Hticks. simpl.
  repeat split; reflexivity || assumption.
Qed.

Lemma holds_entries_files (date_str : string) (w w' : world) (entries : list FoodEntry) :
  files w' = files w ->
  holds_entries self date_str w entries -> holds_entries self date_str w' entries.
Proof. unfold holds_entries. now intros ->. Qed.

(** On a ledger that holds entries, [save_to_file] succeeds and the
    ledger holds one entry more, at the end. *)
Lemma save_to_file_holds (food_description : string) (n : Nutrition) (w : world)
    (date_str : string) (entries : list FoodEntry) :
  strftime_ymd (now E (ticks w)) = date_str ->
  holds_entries self date_str w entries ->
  let entry := mkFoodEntry (isoformat (now E (ticks w))) food_description n in
  exists (w' : world) (total : Q),
    save_to_file E self food_description n w = (Ok (day_path self date_str), w')
    /\ files w' = <[day_path self date_str :=
                      Encoded (ledger_json date_str (entries ++ [entry]) total)]> (files w)
    /\ (total == total_calories (entries ++ [entry]))%Q
    /\ ticks w' = S (ticks w).
Proof.
  intros Hdate Hholds entry.
  unfold save_to_file, bind, ask. simpl. rewrite Hdate.
  set (w0 := mkWorld (files w) (stdout w) (S (ticks w))).
  destruct (load_holds date_str w0 entries) as (w1 & Hload & Hfiles & Hticks).
  { now apply (holds_entries_files date_str w). }
  rewrite Hload. unfold lift. simpl.
  destruct (sum_calories_entries (entries ++ [entry])) as (total & Hsum & Htotal).
  rewrite fmap_app in Hsum. simpl in Hsum. unfold entry_json at 2 in Hsum.
  simpl in Hsum. rewrite Hsum. simpl.
  eexists. exists total. split; [reflexivity|]. simpl.
  rewrite Hfiles, Hticks. unfold ledger_json. rewrite fmap_app. simpl.
  repeat split; try reflexivity. exact Htotal.
Qed.

Lemma holds_entries_saved (date_str : string) (w : world) (entries : list FoodEntry)
    (total : Q) (m : gmap string file) :
  files w = <[day_path self date_str := Encoded (ledger_json date_str entries total)]> m ->
  holds_entries self date_str w entries.
Proof.
  intros Hfiles. right. right. exists total. rewrite Hfiles. apply lookup_insert_eq.
Qed.

Lemma recorded_length (k : nat) (items : list (string * Nutrition)) :
  length (recorded E k items) = length items.
Proof.
  revert k. induction items as [|[food n] items IH]; intros k; simpl;
    [reflexivity | now rewrite IH].
Qed.

Lemma recorded_items (k : nat) (items : list (string * Nutrition)) :
  (fun e => (description e, nutrition e)) <$> recorded E k items = items.
Proof.
  revert k. induction items as [|[food n] items IH]; intros k; simpl;
    [reflexivity | now rewrite IH].
Qed.

Lemma recorded_app (k : nat) (items items' : list (string * Nutrition)) :
  recorded E k (items ++ items') =
    recorded E k items ++ recorded E (k + length items) items'.
Proof.
  revert k. induction items as [|[food n] items IH]; intros k; simpl.
  - now rewrite Nat.add_0_r.
  - rewrite IH. do 3 f_equal. lia.
Qed.

(** Successive appends on the same day add their entries in call order. *)
Lemma appends_holds (items : list (string * Nutrition)) (w : world)
    (date_str : string) (entries : list FoodEntry) :
  (forall i, (i < length items)%nat -> strftime_ymd (now E (ticks w + i)) = date_str) ->
  holds_entries self date_str w entries ->
  exists w',
    appends E self items w = (Ok tt, w')
    /\ holds_entries self date_str w' (entries ++ recorded E (ticks w) items)
    /\ ticks w' = (ticks w + length items)%nat.
Proof.
  revert w entries. induction items as [|[food n] items IH]; intros w entries Hdate Hholds.
  - exists w. simpl. rewrite app_nil_r, Nat.add_0_r. auto.
  - simpl appends. unfold bind.
    destruct (save_to_file_holds food n w date_str entries) as (w1 & total & Hsave & Hf & _ & Ht).
    { rewrite <- (Hdate 0%nat); [now rewrite Nat.add_0_r | simpl; lia]. }
    { exact Hholds. }
    rewrite Hsave.
    destruct (IH w1 (entries ++ [mkFoodEntry (isoformat (now E (ticks w))) food n]))
      as (w' & Happ & Hh & Ht').
    { intros i Hi. rewrite Ht. rewrite <- (Hdate (S i)); [f_equal; f_equal; lia | simpl; lia]. }
    { now apply (holds_entries_saved date_str w1 _ total (files w)). }
    exists w'. split; [exact Happ|]. rewrite Ht in Hh, Ht'. simpl.
    rewrite <- app_assoc in Hh. split; [exact Hh | lia].
Qed.

End Ledger.

(** ** Saving and summing in any arithmetic *)

Lemma bind_unfold {A B : Type} (m : M A) (k : A -> M B) (w : world) :
  bind m k w =
    match m w with
    | (Ok a, w') => k a w'
    | (Raise e, w') => (Raise e, w')
    end.
Proof. reflexivity. Qed.

Section RoundedLedger.

Variable A : arithmetic.
Variable E : environment.
Variable self : CalorieTracker.

(** Over well-formed entries the sum raises nothing and is [sum] of their
    calories. *)
Lemma rounded_sum_from_entries (acc : partial A) (entries : list FoodEntry) :
  Rounded.sum_calories_from A acc (entry_json <$> entries)
  = Ok (sum_result A (fold_left (sum_add A) (calories_of entries) acc)).
Proof.
  revert acc. induction entries as [|e entries IH]; intros acc; simpl;
    [reflexivity | apply IH].
Qed.

Lemma rounded_sum_entries (entries : list FoodEntry) :
  Rounded.sum_calories A (entry_json <$> entries) = Ok (py_sum A (calories_of entries)).
Proof. apply rounded_sum_from_entries. Qed.

(** What a save does, whatever the files hold. *)
Lemma rounded_save_spec (food_description : string) (n : Nutrition) (w : world) :
  let today := now E (ticks w) in
  let date_str := strftime_ymd today in
  let entry := entry_json (mkFoodEntry (isoformat today) food_description n) in
  match Rounded.save_to_file A E self food_description n w with
  | (Ok path, w') =>
      exists (existing : list json) (total : Q) (w1 : world),
        path = day_path self date_str
        /\ load_daily_data self date_str
             (mkWorld (files w) (stdout w) (S (ticks w))) = (Ok (JArr existing), w1)
        /\ Rounded.sum_calories A (existing ++ [entry]) = Ok total
        /\ files w' = <[path := Encoded (JObj [("entries", JArr (existing ++ [entry]));
                                               ("total_calories", JNum total);
                                               ("date", JStr date_str)])]> (files w)
        /\ ticks w' = S (ticks w)
  | (Raise _, w') => files w' = files w
  end.
Proof.
  intros today date_str entry.
  unfold Rounded.save_to_file, bind, ask. simpl.
  fold today. fold date_str.
  set (w0 := mkWorld (files w) (stdout w) (S (ticks w))).
  pose proof (load_daily_data_files self date_str w0) as [Hfiles Hticks].
  unfold exec in Hfiles, Hticks.
  destruct (load_daily_data self date_str w0) as [[v|e] w1] eqn:Hload;
    simpl in Hfiles, Hticks; [|exact Hfiles].
  unfold lift.
  destruct v as [| | | |existing|]; simpl; try exact Hfiles.
  subst entry. unfold entry_json. simpl.
  match goal with
  | |- context [Rounded.sum_calories A ?l] =>
      destruct (Rounded.sum_calories A l) as [total|e] eqn:Hsum
  end; simpl; [|exact Hfiles].
  exists existing, total, w1. rewrite Hfiles, Hticks. simpl.
  repeat split; reflexivity || assumption.
Qed.

(** On a ledger that holds entries a save succeeds: the file of the day
    becomes the record of the entries with the new one at the end, and of
    [sum] of the calories of them all. *)
Lemma rounded_save_holds (food_description : string) (n : Nutrition) (w : world)
    (date_str : string) (entries : list FoodEntry) :
  strftime_ymd (now E (ticks w)) = date_str ->
  holds_entries self date_str w entries ->
  let stored := entries ++ [mkFoodEntry (isoformat (now E (ticks w))) food_description n] in
  exists w' : world,
    Rounded.save_to_file A E self food_description n w = (Ok (day_path self date_str), w')
    /\ files w' = <[day_path self date_str :=
                      Encoded (ledger_json date_str stored (py_sum A (calories_of stored)))]>
                    (files w)
    /\ ticks w' = S (ticks w).
Proof.
  intros Hdate Hholds stored.
  unfold Rounded.save_to_file, bind, ask. simpl. rewrite Hdate.
  set (w0 := mkWorld (files w) (stdout w) (S (ticks w))).
  destruct (load_holds self date_str w0 entries) as (w1 & Hload & Hfiles & Hticks).
  { now apply (holds_entries_files self date_str w). }
  rewrite Hload. unfold lift. simpl.
  pose proof (rounded_sum_entries stored) as Hsum.
  unfold stored in Hsum at 1. rewrite fmap_app in Hsum. simpl in Hsum.
  unfold entry_json at 2 in Hsum. simpl in Hsum. rewrite Hsum. simpl.
  eexists. split; [reflexivity|]. simpl.
  rewrite Hfiles, Hticks. unfold ledger_json, stored. rewrite fmap_app. simpl.
  split; reflexivity.
Qed.

(** On a ledger that holds entries, the consumed calories are [sum] of
    their calories and the remaining ones the limit minus the consumed. *)
Lemma rounded_calculate_holds (w : world) (date_str : string) (entries : list FoodEntry) :
  strftime_ymd (now E (ticks w)) = date_str ->
  holds_entries self date_str w entries ->
  exists w' : world,
    Rounded.calculate_remaining_calories A E self w
      = (Ok (py_sum A (calories_of entries),
             minus A (inject_Z (daily_limit self)) (py_sum A (calories_of entries))), w')
    /\ files w' = files w /\ ticks w' = S (ticks w).
Proof.
  intros Hdate Hholds.
  unfold Rounded.calculate_remaining_calories, bind, ask. simpl. rewrite Hdate.
  set (w0 := mkWorld (files w) (stdout w) (S (ticks w))).
  destruct (load_holds self date_str w0 entries) as (w1 & Hload & Hfiles & Hticks).
  { now apply (holds_entries_files self date_str w). }
  rewrite Hload. unfold lift. simpl. rewrite rounded_sum_entries. simpl.
  exists w1. auto.
Qed.

End RoundedLedger.

(** Without rounding these are the functions that add exactly. *)
Lemma rounded_exact_sum (acc : Q) (entries : list json) :
  Rounded.sum_calories_from exact acc entries = sum_calories_from acc entries.
Proof.
  revert acc. induction entries as [|e entries IH]; intros acc; simpl; [reflexivity|].
  destruct (subscript e "nutrition") as [n|x]; simpl; [|reflexivity].
  destruct (subscript n "calories") as [c|x]; simpl; [|reflexivity].
  destruct (as_number c); [apply IH | reflexivity].
Qed.

Lemma rounded_exact_save (E : environment) (self : CalorieTracker)
    (food_description : string) (n : Nutrition) (w : world) :
  Rounded.save_to_file exact E self food_description n w
  = save_to_file E self food_description n w.
Proof.
  unfold Rounded.save_to_file, save_to_file, Rounded.sum_calories, sum_calories.
  rewrite !bind_unfold. cbn [ask]. rewrite !bind_unfold.
  destruct (load_daily_data self _ _) as [[v|x] w1]; [|reflexivity].
  rewrite !bind_unfold. cbn [lift].
  destruct (list_append v _) as [l|x]; [|reflexivity].
  rewrite !bind_unfold. cbn [lift]. now rewrite rounded_exact_sum.
Qed.

Lemma rounded_exact_calculate (E : environment) (self : CalorieTracker) (w : world) :
  Rounded.calculate_remaining_calories exact E self w
  = calculate_remaining_calories E self w.
Proof.
  unfold Rounded.calculate_remaining_calories, calculate_remaining_calories,
    Rounded.sum_calories, sum_calories.
  rewrite !bind_unfold. cbn [ask]. rewrite !bind_unfold.
  destruct (load_daily_data self _ _) as [[v|x] w1]; [|reflexivity].
  rewrite !bind_unfold. cbn [lift].
  destruct (iterate v) as [l|x]; [|reflexivity].
  rewrite !bind_unfold. cbn [lift]. now rewrite rounded_exact_sum.
Qed.

(** C2. Whatever entry is appended and whatever the ledger of the day held
    (no file, a file that is not JSON, or a record of entries with any
    stored total, a wrong one included), [save_to_file] succeeds and
    persists the record of the old entries followed by the new one, whose
    [total_calories] is [sum] of [nutrition.calories] over all the entries
    of this record: the total is computed from the whole list at each save
    and the total stored before is not used.  Whatever the files hold, a
    record that is persisted has the total that [sum] gives over its own
    entries; a save that fails persists nothing. *)
Theorem saved_total_is_sum_of_entries (A : arithmetic) (E : environment)
    (self : CalorieTracker) (food_description : string) (n : Nutrition) (w : world) :
  (forall (date_str : string) (entries : list FoodEntry),
     strftime_ymd (now E (ticks w)) = date_str ->
     holds_entries self date_str w entries ->
     let stored :=
       entries ++ [mkFoodEntry (isoformat (now E (ticks w))) food_description n] in
     exists w' : world,
       Rounded.save_to_file A E self food_description n w
         = (Ok (day_path self date_str), w')
       /\ files w' !! day_path self date_str
          = Some (Encoded (ledger_json date_str stored (py_sum A (calories_of stored)))))
  /\ match Rounded.save_to_file A E self food_description n w with
     | (Ok path, w') =>
         exists (record : json) (existing : list json) (total : Q),
           let entries :=
             existing ++ [entry_json (mkFoodEntry (isoformat (now E (ticks w)))
                                        food_description n)] in
           files w' !! path = Some (Encoded record)
           /\ subscript record "entries" = Ok (JArr entries)
           /\ subscript record "total_calories" = Ok (JNum total)
           /\ Rounded.sum_calories A entries = Ok total
           /\ (forall typed : list FoodEntry,
                 entries = entry_json <$> typed -> total = py_sum A (calories_of typed))
     | (Raise _, w') => files w' = files w
     end.
Proof.
  split.
  - intros date_str entries Hdate Hholds stored.
    destruct (rounded_save_holds A E self food_description n w date_str entries
                Hdate Hholds) as (w' & Hsave & Hfiles & _).
    exists w'. split; [exact Hsave|]. rewrite Hfiles. apply lookup_insert_eq.
  - pose proof (rounded_save_spec A E self food_description n w) as H. simpl in H.
    destruct (Rounded.save_to_file A E self food_description n w) as [[path|e] w'];
      [|exact H].
    destruct H as (existing & total & w1 & -> & _ & Hsum & Hfiles & _).
    eexists. exists existing, total. simpl.
    split; [rewrite Hfiles; apply lookup_insert_eq|].
    repeat split; try reflexivity; try exact Hsum.
    intros typed Htyped. rewrite Htyped, rounded_sum_entries in Hsum.
    now injection Hsum as <-.
Qed.

(** In binary floating point, on a ledger holding 0.1 and 0.2 with a stored
    total that is wrong (0), saving 0.3 stores the three entries and the
    total 0.6000000000000001, the sum from the left of the three floats. *)
Lemma saved_total_is_sum_of_entries_witness :
  let tenth := Sample.nearest_float (1 # 10) in
  let fifth := Sample.nearest_float (2 # 10) in
  let three_tenths := Sample.nearest_float (3 # 10) in
  let w := mkWorld {[ "tracker/25-11-04.json" :=
             Encoded (ledger_json "25-11-04"
                        [mkFoodEntry "2025-11-04T08:00:00" "tea" (mkNutrition 0 0 0 tenth);
                         mkFoodEntry "2025-11-04T09:00:00" "toast" (mkNutrition 0 0 0 fifth)]
                        0) ]} [] 0 in
  exists w' : world,
    Rounded.save_to_file Sample.binary64 Sample.outside Sample.tracker "jam"
      (mkNutrition 0 0 0 three_tenths) w
    = (Ok "tracker/25-11-04.json", w')
    /\ files w' !! "tracker/25-11-04.json"
       = Some (Encoded (ledger_json "25-11-04"
                 [mkFoodEntry "2025-11-04T08:00:00" "tea" (mkNutrition 0 0 0 tenth);
                  mkFoodEntry "2025-11-04T09:00:00" "toast" (mkNutrition 0 0 0 fifth);
                  mkFoodEntry "2025-11-04T12:00:00.002500" "jam"
                    (mkNutrition 0 0 0 three_tenths)]
                 (py_sum Sample.binary64 [tenth; fifth; three_tenths])))
    /\ Qred (py_sum Sample.binary64 [tenth; fifth; three_tenths])
       = (1351079888211149 # 2251799813685248)%Q
    /\ ~ (py_sum Sample.binary64 [tenth; fifth; three_tenths] == 6 # 10)%Q.
Proof.
  intros tenth fifth three_tenths w.
  destruct (proj1 (saved_total_is_sum_of_entries Sample.binary64 Sample.outside
                     Sample.tracker "jam" (mkNutrition 0 0 0 three_tenths) w)
              "25-11-04"
              [mkFoodEntry "2025-11-04T08:00:00" "tea" (mkNutrition 0 0 0 tenth);
               mkFoodEntry "2025-11-04T09:00:00" "toast" (mkNutrition 0 0 0 fifth)])
    as (w' & Hsave & Hfile).
  - reflexivity.
  - right. right. exists 0%Q. reflexivity.
  - exists w'. split; [exact Hsave|]. split; [exact Hfile|].
    split; [vm_compute; reflexivity | vm_compute; discriminate].
Defined.

(** A save on a ledger of one entry: the record holds both entries and
    their total. *)
Example save_second_entry :
  let w := exec (save_to_file Sample.outside Sample.tracker "1 apple" Sample.apple)
             Sample.empty_world in
  exists w',
    save_to_file Sample.outside Sample.tracker "1 cup rice" Sample.rice w
      = (Ok "tracker/25-11-04.json", w')
    /\ files w' !! "tracker/25-11-04.json" =
         Some (Encoded (ledger_json "25-11-04"
           [mkFoodEntry "2025-11-04T12:00:00.002500" "1 apple" Sample.apple;
            mkFoodEntry "2025-11-04T12:01:00.002500" "1 cup rice" Sample.rice]
           (601 # 2))).
Proof. eexists. split; vm_compute; reflexivity. Qed.

(** C3. From an empty ledger for a date, after N successful appends on that
    date [load_daily_data] returns exactly N entries, in the order of the
    appends, each with the description and the nutrition it was appended
    with and the time of its append; the last one is the entry appended
    last. *)
Theorem appends_then_load (E : environment) (self : CalorieTracker)
    (items : list (string * Nutrition)) (w : world) (date_str : string) :
  files w !! day_path self date_str = None ->
  (forall i, (i < length items)%nat -> strftime_ymd (now E (ticks w + i)) = date_str) ->
  exists w' : world,
    appends E self items w = (Ok tt, w')
    /\ eval (load_daily_data self date_str) w'
       = Ok (JArr (entry_json <$> recorded E (ticks w) items))
    /\ length (recorded E (ticks w) items) = length items
    /\ (fun e => (description e, nutrition e)) <$> recorded E (ticks w) items = items
    /\ (forall (before : list (string * Nutrition)) (food_description : string)
               (n : Nutrition),
          items = before ++ [(food_description, n)] ->
          last (recorded E (ticks w) items) =
            Some (mkFoodEntry (isoformat (now E (ticks w + length before)))
                    food_description n)).
Proof.
  intros Hnone Hdate.
  destruct (appends_holds E self items w date_str []) as (w' & Happ & Hholds & _).
  { exact Hdate. }
  { left. auto. }
  exists w'. split; [exact Happ|].
  destruct (load_holds self date_str w' _ Hholds) as (w'' & Hload & _).
  unfold eval. rewrite Hload. simpl.
  split; [reflexivity|]. split; [apply recorded_length|].
  split; [apply recorded_items|].
  intros before food n ->. rewrite recorded_app. simpl. now rewrite last_snoc.
Qed.

Lemma appends_then_load_witness :
  exists w' : world,
    appends Sample.outside Sample.tracker
      [("1 apple", Sample.apple); ("1 cup rice", Sample.rice)] Sample.empty_world
      = (Ok tt, w')
    /\ eval (load_daily_data Sample.tracker Sample.today) w'
       = Ok (JArr (entry_json <$>
           [mkFoodEntry "2025-11-04T12:00:00.002500" "1 apple" Sample.apple;
            mkFoodEntry "2025-11-04T12:01:00.002500" "1 cup rice" Sample.rice])).
Proof.
  destruct (appends_then_load Sample.outside Sample.tracker
              [("1 apple", Sample.apple); ("1 cup rice", Sample.rice)]
              Sample.empty_world Sample.today) as (w' & Happ & Hload & _).
  - reflexivity.
  - intros i _. reflexivity.
  - exists w'. split; [exact Happ | exact Hload].
Defined.

(** ** Reading a damaged ledger *)

Lemma load_not_record (self : CalorieTracker) (date_str : string) (w : world) (j : json) :
  files w !! day_path self date_str = Some (Encoded j) ->
  (forall items, j <> JObj items) ->
  load_daily_data self date_str w = (Raise AttributeError, w).
Proof.
  intros Hf Hj. unfold load_daily_data, bind, lookup_file. fold (day_path self date_str).
  rewrite Hf. destruct j; try reflexivity. now destruct (Hj items).
Qed.

Lemma load_unreadable (self : CalorieTracker) (date_str : string) (w : world) :
  files w !! day_path self date_str = Some Unreadable ->
  load_daily_data self date_str w = (Raise OSError, w).
Proof.
  intros Hf. unfold load_daily_data, bind, lookup_file. fold (day_path self date_str).
  now rewrite Hf.
Qed.

(** C5. Without a file [load_daily_data] returns the empty list, and with a
    file that is not JSON it prints a warning and returns the empty list.
    A file that decodes to something else than a record (here the list
    [[]]) is not treated so: [data.get] raises [AttributeError], which the
    handler for [JSONDecodeError] and [KeyError] does not catch; no warning
    is printed, and [run] reports the error and stops before any item is
    processed. *)
Theorem load_raises_on_list_file :
  load_daily_data Sample.tracker Sample.today Sample.empty_world
    = (Ok (JArr []), Sample.empty_world)
  /\ eval (load_daily_data Sample.tracker Sample.today)
       (mkWorld {[ "tracker/25-11-04.json" := Undecodable ]} [] 0) = Ok (JArr [])
  /\ stdout (exec (load_daily_data Sample.tracker Sample.today)
       (mkWorld {[ "tracker/25-11-04.json" := Undecodable ]} [] 0))
     = [WarnCouldNotRead "tracker/25-11-04.json" JSONDecodeError]
  /\ load_daily_data Sample.tracker Sample.today Sample.list_world
     = (Raise AttributeError, Sample.list_world)
  /\ run Sample.outside Sample.tracker (Some ["1 apple"]) Sample.list_world
     = (Ok tt, mkWorld (files Sample.list_world) [ErrorReport AttributeError] 1).
Proof. repeat split; vm_compute; reflexivity. Qed.

(** ** The summary *)

Lemma Qltb_lt (a b : Q) : Qltb a b = true <-> (a < b)%Q.
Proof.
  unfold Qltb. rewrite negb_true_iff. split.
  - intros H. apply Qnot_le_lt. intros Hle. apply Qle_bool_iff in Hle. congruence.
  - intros H. destruct (Qle_bool b a) eqn:Hb; [|reflexivity].
    apply Qle_bool_iff in Hb. now apply Qlt_not_le in H.
Qed.

Lemma Qltb_ge (a b : Q) : Qltb a b = false <-> (b <= a)%Q.
Proof.
  unfold Qltb. rewrite negb_false_iff. apply Qle_bool_iff.
Qed.

(** On a ledger that holds entries, the consumed calories are their total
    and the remaining ones the limit less the consumed. *)
Lemma calculate_holds (E : environment) (self : CalorieTracker) (w : world)
    (date_str : string) (entries : list FoodEntry) :
  strftime_ymd (now E (ticks w)) = date_str ->
  holds_entries self date_str w entries ->
  exists (consumed : Q) (w' : world),
    calculate_remaining_calories E self w
      = (Ok (consumed, (inject_Z (daily_limit self) - consumed)%Q), w')
    /\ (consumed == total_calories entries)%Q
    /\ files w' = files w /\ ticks w' = S (ticks w).
Proof.
  intros Hdate Hholds.
  unfold calculate_remaining_calories, bind, ask. simpl. rewrite Hdate.
  set (w0 := mkWorld (files w) (stdout w) (S (ticks w))).
  destruct (load_holds self date_str w0 entries) as (w1 & Hload & Hfiles & Hticks).
  { now apply (holds_entries_files self date_str w). }
  rewrite Hload. unfold lift. simpl.
  destruct (sum_calories_entries entries) as (q & Hq & Heq). rewrite Hq. simpl.
  exists q, w1. auto.
Qed.

(** The line [display_daily_summary] ends with, by the remaining calories. *)
Lemma display_daily_summary_tier (self : CalorieTracker) (consumed remaining : Q)
    (w : world) :
  exists tier : line,
    display_daily_summary self consumed remaining w =
      (Ok tt, mkWorld (files w)
                (stdout w ++ [SummaryTitle; SummaryLimit (daily_limit self);
                              SummaryConsumed consumed; SummaryRemaining remaining;
                              tier])
                (ticks w))
    /\ (tier = Exceeded (Qabs remaining) <-> (remaining < 0)%Q)
    /\ (tier = AlmostAtLimit <-> (0 <= remaining)%Q /\ (remaining < 200)%Q)
    /\ (tier = DoingGreat <-> (200 <= remaining)%Q).
Proof.
  unfold display_daily_summary, bind, print. simpl.
  repeat rewrite <- app_assoc. simpl.
  destruct (Qltb remaining 0) eqn:H0; [|destruct (Qltb remaining 200) eqn:H200];
    simpl; rewrite <- app_assoc; simpl.
  - apply Qltb_lt in H0. eexists. split; [reflexivity|].
    split; [tauto|]. split; split; try discriminate.
    + intros [Hle _]. now apply Qlt_not_le in H0.
    + intros Hle. exfalso. apply (Qlt_not_le _ _ H0).
      apply Qle_trans with (2 := Hle). discriminate.
  - apply Qltb_ge in H0. apply Qltb_lt in H200. eexists. split; [reflexivity|].
    split; [|split]; split; try discriminate; try tauto.
    + intros Hlt. now apply Qlt_not_le in Hlt.
    + intros Hle. now apply Qlt_not_le in H200.
  - apply Qltb_ge in H0. apply Qltb_ge in H200. eexists. split; [reflexivity|].
    split; [|split]; split; try discriminate; try tauto.
    + intros Hlt. now apply Qlt_not_le in Hlt.
    + intros [_ Hlt]. now apply Qlt_not_le in Hlt.
Qed.

(** C6. For a ledger that holds entries and any daily limit, the summary
    has [consumed] equal to [sum] of the calories of the entries loaded and
    [remaining] equal to the limit minus [consumed] (possibly negative),
    as the arithmetic of floats computes them; the tier shown is over the
    limit exactly when [remaining < 0], near the limit exactly when
    [0 <= remaining < 200], on track otherwise; the default limit is
    3000. *)
Theorem summary_of_ledger (A : arithmetic) (E : environment) (self : CalorieTracker)
    (w : world) (date_str : string) (entries : list FoodEntry) :
  strftime_ymd (now E (ticks w)) = date_str ->
  holds_entries self date_str w entries ->
  exists (consumed remaining : Q) (w' : world) (tier : line),
    Rounded.calculate_remaining_calories A E self w = (Ok (consumed, remaining), w')
    /\ consumed = py_sum A (calories_of entries)
    /\ remaining = minus A (inject_Z (daily_limit self)) consumed
    /\ stdout (exec (display_daily_summary self consumed remaining) w')
       = stdout w' ++ [SummaryTitle; SummaryLimit (daily_limit self);
                       SummaryConsumed consumed; SummaryRemaining remaining; tier]
    /\ (tier = Exceeded (Qabs remaining) <-> (remaining < 0)%Q)
    /\ (tier = AlmostAtLimit <-> (0 <= remaining)%Q /\ (remaining < 200)%Q)
    /\ (tier = DoingGreat <-> (200 <= remaining)%Q)
    /\ daily_limit (init None None) = 3000%Z.
Proof.
  intros Hdate Hholds.
  destruct (rounded_calculate_holds A E self w date_str entries Hdate Hholds)
    as (w' & Hcalc & _).
  destruct (display_daily_summary_tier self (py_sum A (calories_of entries))
              (minus A (inject_Z (daily_limit self)) (py_sum A (calories_of entries))) w')
    as (tier & Hshow & Hover & Hnear & Htrack).
  exists (py_sum A (calories_of entries)),
    (minus A (inject_Z (daily_limit self)) (py_sum A (calories_of entries))), w', tier.
  unfold exec. rewrite Hshow. simpl. repeat split; tauto.
Qed.

(** In binary floating point, with the limit 3000 and entries of 550.2,
    1499.9 and 949.9 calories: the sum from the left is
    3000.0000000000005, the remaining calories are -4.547473508864641e-13
    and the day is over the limit. *)
Lemma summary_of_ledger_witness :
  let meals :=
    [mkFoodEntry "2025-11-04T08:00:00" "breakfast"
       (mkNutrition 0 0 0 (Sample.nearest_float (5502 # 10)));
     mkFoodEntry "2025-11-04T12:00:00" "lunch"
       (mkNutrition 0 0 0 (Sample.nearest_float (14999 # 10)));
     mkFoodEntry "2025-11-04T19:00:00" "dinner"
       (mkNutrition 0 0 0 (Sample.nearest_float (9499 # 10)))] in
  let w := mkWorld {[ "tracker/25-11-04.json" :=
                        Encoded (ledger_json "25-11-04" meals 0) ]} [] 0 in
  exists (consumed remaining : Q) (w' : world),
    Rounded.calculate_remaining_calories Sample.binary64 Sample.outside Sample.tracker w
      = (Ok (consumed, remaining), w')
    /\ Qred consumed = (6597069766656001 # 2199023255552)%Q
    /\ Qred remaining = (-1 # 2199023255552)%Q
    /\ last (stdout (exec (display_daily_summary Sample.tracker consumed remaining) w'))
       = Some (Exceeded (Qabs remaining)).
Proof.
  intros meals w.
  destruct (summary_of_ledger Sample.binary64 Sample.outside Sample.tracker w
              "25-11-04" meals)
    as (consumed & remaining & w' & tier & Hcalc & Hc & Hr & Hout & Hover & _).
  - reflexivity.
  - right. right. exists 0%Q. reflexivity.
  - exists consumed, remaining, w'. split; [exact Hcalc|].
    assert (Hlt : (remaining < 0)%Q).
    { rewrite Hr, Hc. vm_compute. reflexivity. }
    split; [rewrite Hc; vm_compute; reflexivity|].
    split; [rewrite Hr, Hc; vm_compute; reflexivity|].
    rewrite Hout, last_app. simpl. f_equal. now apply Hover.
Defined.

(** The scenarios of the specification, in binary floating point: with
    the limit 3000 and one entry of 550.2 calories, 550.2 are consumed,
    2449.8 remain (the floats nearest to them) and the day is on track;
    with the limit 2000 and entries of 1850 and 100, 1950 are consumed, 50
    remain, near the limit; with 2100 consumed, -100 remain, over the
    limit. *)
Example summary_scenarios :
  let day (limit : Z) (meals : list Q) :=
    let self := init (Some limit) None in
    let entries :=
      (fun k => mkFoodEntry "2025-11-04T08:00:00" "meal"
                  (mkNutrition 0 0 0 (Sample.nearest_float k))) <$> meals in
    let w := mkWorld {[ "tracker/25-11-04.json" :=
                          Encoded (ledger_json "25-11-04" entries 0) ]} [] 0 in
    match Rounded.calculate_remaining_calories Sample.binary64 Sample.outside self w with
    | (Ok (consumed, remaining), w') =>
        Some (Qred consumed, Qred remaining,
              last (stdout (exec (display_daily_summary self consumed remaining) w')))
    | _ => None
    end in
  day 3000%Z [(5502 # 10)%Q]
    = Some (Qred (Sample.nearest_float (5502 # 10)),
            Qred (Sample.nearest_float (24498 # 10)), Some DoingGreat)
  /\ day 2000%Z [(1850 # 1)%Q; (100 # 1)%Q]
    = Some ((1950 # 1)%Q, (50 # 1)%Q, Some AlmostAtLimit)
  /\ day 2000%Z [(2100 # 1)%Q]
    = Some ((2100 # 1)%Q, (-100 # 1)%Q, Some (Exceeded (100 # 1)%Q)).
Proof. repeat split; vm_compute; reflexivity. Qed.

(** ** The loop of [run] *)

Section Loop.

Variable E : environment.
Variable self : CalorieTracker.

(** Asking the service writes no file. *)
Lemma query_llm_files (food_description : string) (w : world) :
  files (exec (query_llm E self food_description) w) = files w.
Proof.
  unfold exec, query_llm, bind, print, ask, lift, raise. simpl.
  destruct (post E _ _ _) as [m|j]; simpl; [reflexivity|].
  destruct j; simpl; try reflexivity.
  destruct (from_option _ _ _); simpl; reflexivity.
Qed.

(** The loop over a list is the loop over its first part, then over the
    rest. *)
Lemma process_items_app (i n : nat) (before after filepaths : list string) (w : world) :
  process_items E self i n (before ++ after) filepaths w =
    match process_items E self i n before filepaths w with
    | (Ok filepaths', w') =>
        process_items E self (i + length before) n after filepaths' w'
    | (Raise e, w') => (Raise e, w')
    end.
Proof.
  revert i filepaths w. induction before as [|food before IH]; intros i filepaths w.
  - simpl. now rewrite Nat.add_0_r.
  - cbn [process_items app length bind print]. rewrite !bind_unfold.
    destruct (query_llm E self food _) as [[nutrition|e] w1]; [|reflexivity].
    rewrite !bind_unfold.
    destruct (save_to_file E self food nutrition w1) as [[filepath|e] w2]; [|reflexivity].
    rewrite !bind_unfold. cbn [print]. rewrite IH.
    now replace (S i + length before)%nat with (i + S (length before))%nat by lia.
Qed.

(** An item whose estimate fails ends the loop with its exception. *)
Lemma process_items_failure (i n : nat) (food_description : string)
    (after filepaths : list string) (w : world) (e : exn) :
  eval (query_llm E self food_description)
    (exec (print (ProcessingItem i n food_description)) w) = Raise e ->
  process_items E self i n (food_description :: after) filepaths w =
    (Raise e, exec (query_llm E self food_description)
                (exec (print (ProcessingItem i n food_description)) w)).
Proof.
  unfold eval, exec. intros Hq. cbn [process_items bind print fst snd] in *.
  rewrite bind_unfold.
  destruct (query_llm E self food_description _) as [[nutrition|e'] w1];
    cbn [fst snd] in *; congruence.
Qed.

End Loop.

(** C7 (as amended). When the estimate of an item fails, by the service or
    by the parser, the item is not recorded: the files are those left by
    the items before it.  The loop ends there: the run reports the error
    and returns, and the items after the failed one are neither estimated
    nor recorded. *)
Theorem failed_item_ends_run (E : environment) (self : CalorieTracker)
    (food_descriptions : option (list string))
    (before : list string) (food_description : string) (after : list string)
    (w w0 w1 : world) (filepaths : list string) (e : exn) :
  let n := length (before ++ food_description :: after) in
  let asked := print (ProcessingItem (1 + length before) n food_description);;;
               query_llm E self food_description in
  run_prologue E self food_descriptions w
    = (Ok (before ++ food_description :: after), w0) ->
  process_items E self 1 n before [] w0 = (Ok filepaths, w1) ->
  eval asked w1 = Raise e ->
  run E self food_descriptions w = (Ok tt, exec (print (ErrorReport e)) (exec asked w1))
  /\ files (exec (run E self food_descriptions) w) = files w1.
Proof.
  intros n asked Hprologue Hloop Hfail.
  assert (Hasked : asked w1 = (Raise e, exec asked w1)).
  { unfold eval, exec in *. destruct (asked w1) as [r w2]. simpl in *. now subst r. }
  assert (Hitems : process_items E self 1 n (before ++ food_description :: after) [] w0
                   = (Raise e, exec asked w1)).
  { rewrite process_items_app, Hloop.
    rewrite process_items_failure with (e := e).
    - reflexivity.
    - unfold eval, asked in Hfail. rewrite bind_unfold in Hfail. exact Hfail. }
  assert (Hrun : run E self food_descriptions w
                 = (Ok tt, exec (print (ErrorReport e)) (exec asked w1))).
  { unfold run, try_except. rewrite bind_unfold, Hprologue. rewrite bind_unfold.
    fold n. rewrite Hitems. reflexivity. }
  split; [exact Hrun|].
  unfold exec at 1. rewrite Hrun. simpl.
  exact (query_llm_files E self food_description
           (exec (print (ProcessingItem (1 + length before) n food_description)) w1)).
Qed.

Lemma failed_item_ends_run_witness :
  exists w1 : world,
    process_items Sample.outside Sample.tracker 1 3 ["1 apple"] []
      (exec (run_prologue Sample.outside Sample.tracker
               (Some ["1 apple"; "mystery stew"; "1 cup rice"])) Sample.empty_world)
      = (Ok ["tracker/25-11-04.json"], w1)
    /\ files (exec (run Sample.outside Sample.tracker
                      (Some ["1 apple"; "mystery stew"; "1 cup rice"]))
                Sample.empty_world) = files w1
    /\ eval (run Sample.outside Sample.tracker
               (Some ["1 apple"; "mystery stew"; "1 cup rice"])) Sample.empty_world
       = Ok tt.
Proof.
  eexists. split; [vm_compute; reflexivity|].
  edestruct (failed_item_ends_run Sample.outside Sample.tracker
               (Some ["1 apple"; "mystery stew"; "1 cup rice"])
               ["1 apple"] "mystery stew" ["1 cup rice"] Sample.empty_world)
    as [Hrun Hfiles].
  - vm_compute. reflexivity.
  - vm_compute. reflexivity.
  - vm_compute. reflexivity.
  - split; [exact Hfiles|]. unfold eval. now rewrite Hrun.
Defined.

(** C7, as stated, fails: after the item "mystery stew" failed, the run does
    not go on to "1 apple"; it is neither estimated nor recorded, though a
    run with it alone records it. *)
Lemma run_stops_at_failed_item_counterexample :
  run Sample.outside Sample.tracker (Some ["mystery stew"; "1 apple"]) Sample.empty_world
  = (Ok tt,
     mkWorld ∅
       [NoEntriesFound "25-11-04"; Rule; Title; Rule; ProcessingCount 2;
        ListedItem 1 "mystery stew"; ListedItem 2 "1 apple";
        ProcessingItem 1 2 "mystery stew"; QueryingLLM;
        LLMResponse (JStr "I cannot tell without the recipe.");
        ErrorReport (ValueError (MsgExpected4 0 []))]
       3)
  /\ files (exec (run Sample.outside Sample.tracker (Some ["1 apple"])) Sample.empty_world)
       !! "tracker/25-11-04.json"
     = Some (Encoded (ledger_json "25-11-04"
               [mkFoodEntry "2025-11-04T12:03:00.002500" "1 apple" Sample.apple]
               (95 # 1))).
Proof. split; vm_compute; reflexivity. Qed.

(** * Further properties of the code *)

(** ** The scan keeps the digits of the reply *)

Lemma filter_digits_findall_from (k : nat) (s : list ascii) :
  filter (fun c => Regex.is_digit c = true) (concat (Regex.findall_from k s))
  = filter (fun c => Regex.is_digit c = true) (drop k s).
Proof.
  revert k. induction s as [|c s IH]; intros k.
  - now destruct k.
  - destruct k as [|k]; [|apply IH].
    cbn [Regex.findall_from drop].
    destruct (Regex.match_number (c :: s)) as [m|] eqn:Hm.
    + cbn [concat]. rewrite filter_app, IH.
      pose proof (RegexFacts.match_number_nonempty _ _ Hm) as Hlen.
      apply RegexFacts.match_number_spec in Hm as [_ Hm].
      rewrite <- Hm at 1. rewrite filter_app. f_equal. f_equal.
      destruct (length m) as [|n]; [lia|]. simpl. now rewrite Nat.sub_0_r.
    + rewrite IH. apply RegexFacts.match_number_none in Hm.
      simpl in Hm. rewrite filter_cons.
      destruct (Regex.is_digit c) eqn:Hc; [discriminate|].
      rewrite decide_False by congruence. reflexivity.
Qed.

(** X1. The numbers found, one after the other, hold the digits of the reply,
    all of them and in their order: the scan neither drops nor repeats a
    digit. *)
Theorem findall_keeps_every_digit (reply : string) :
  filter (fun c => Regex.is_digit c = true)
    (concat (list_ascii_of_string <$> Regex.findall reply))
  = filter (fun c => Regex.is_digit c = true) (list_ascii_of_string reply).
Proof.
  unfold Regex.findall. rewrite <- list_fmap_compose.
  erewrite (list_fmap_ext _ id).
  - rewrite list_fmap_id. apply (filter_digits_findall_from 0).
  - intros i m _. simpl. apply list_ascii_of_string_of_list_ascii.
Qed.

(** X2. A reply yields no number exactly when it has no digit; the parser then
    fails with "Expected 4 numbers from LLM, got 0: []".  The empty reply is
    such a reply. *)
Theorem no_digit_no_number (reply : string) :
  (Regex.findall reply = [] <->
   Forall (fun c => Regex.is_digit c = false) (list_ascii_of_string reply))
  /\ (Regex.findall reply = [] ->
      parse_nutritional_data reply = Raise (ValueError (MsgExpected4 0 []))).
Proof.
  split.
  - split.
    + unfold Regex.findall. intros Hnil. apply fmap_nil_inv in Hnil.
      revert Hnil. generalize (list_ascii_of_string reply). intros s.
      induction s as [|c s IH]; intros Hnil; [constructor|].
      simpl in Hnil.
      destruct (Regex.match_number (c :: s)) as [m|] eqn:Hm; [discriminate|].
      apply RegexFacts.match_number_none in Hm. simpl in Hm.
      destruct (Regex.is_digit c) eqn:Hc; [discriminate|].
      constructor; [exact Hc | now apply IH].
    + unfold Regex.findall. generalize (list_ascii_of_string reply). intros s Hall.
      induction Hall as [|c s Hc _ IH]; [reflexivity|].
      simpl. unfold Regex.match_number. simpl. rewrite Hc. exact IH.
  - intros Hnil. unfold parse_nutritional_data. now rewrite Hnil.
Qed.

Lemma no_digit_no_number_witness :
  parse_nutritional_data "I cannot tell without the recipe."
  = Raise (ValueError (MsgExpected4 0 [])).
Proof.
  apply (proj2 (no_digit_no_number "I cannot tell without the recipe.")).
  reflexivity.
Defined.

(** ** More on the ledger store *)

Lemma load_eval_files (self : CalorieTracker) (date_str : string) (w1 w2 : world) :
  files w1 !! day_path self date_str = files w2 !! day_path self date_str ->
  eval (load_daily_data self date_str) w1 = eval (load_daily_data self date_str) w2.
Proof.
  intros Hf. unfold eval, load_daily_data, bind, lookup_file, try_except. simpl.
  fold (day_path self date_str). rewrite Hf.
  destruct (files w2 !! _) as [[|j|]|]; simpl; try reflexivity.
  destruct j; reflexivity.
Qed.

(** X4. Reading twice, with nothing written in between, gives the same
    entries (or the same exception). *)
Theorem load_twice_same (self : CalorieTracker) (date_str : string) (w : world) :
  eval (load_daily_data self date_str) (exec (load_daily_data self date_str) w)
  = eval (load_daily_data self date_str) w.
Proof.
  apply load_eval_files. now rewrite (proj1 (load_daily_data_files self date_str w)).
Qed.

Lemma list_ascii_of_string_inj (a b : string) :
  list_ascii_of_string a = list_ascii_of_string b -> a = b.
Proof.
  intros H. rewrite <- (string_of_list_ascii_of_string a), H.
  apply string_of_list_ascii_of_string.
Qed.

(** Two dates have two files. *)
Lemma day_path_inj (self : CalorieTracker) (d1 d2 : string) :
  day_path self d1 = day_path self d2 -> d1 = d2.
Proof.
  unfold day_path, path_join. intros H.
  apply String.app_inj in H. apply String.app_inj in H.
  apply list_ascii_of_string_inj.
  apply (f_equal list_ascii_of_string) in H.
  rewrite !list_ascii_of_string_app in H. now apply app_inv_tail in H.
Qed.

(** A save, successful or not, touches only the file of its day. *)
Lemma save_to_file_other_files (E : environment) (self : CalorieTracker)
    (food_description : string) (n : Nutrition) (w : world) (path : string) :
  path <> day_path self (strftime_ymd (now E (ticks w))) ->
  files (exec (save_to_file E self food_description n) w) !! path = files w !! path.
Proof.
  intros Hne. pose proof (save_to_file_spec E self food_description n w) as H.
  simpl in H. unfold exec.
  destruct (save_to_file E self food_description n w) as [[p|e] w']; simpl.
  - destruct H as (existing & total & w1 & -> & _ & _ & -> & _).
    now apply lookup_insert_ne.
  - now rewrite H.
Qed.

(** X5. Saving an entry today leaves the ledger of any other day as it was:
    reading that day gives the same entries before and after. *)
Theorem save_keeps_other_days (E : environment) (self : CalorieTracker)
    (food_description : string) (n : Nutrition) (w : world) (other_day : string) :
  other_day <> strftime_ymd (now E (ticks w)) ->
  files (exec (save_to_file E self food_description n) w) !! day_path self other_day
    = files w !! day_path self other_day
  /\ eval (load_daily_data self other_day) (exec (save_to_file E self food_description n) w)
     = eval (load_daily_data self other_day) w.
Proof.
  intros Hne.
  assert (Hf : files (exec (save_to_file E self food_description n) w)
                 !! day_path self other_day = files w !! day_path self other_day).
  { apply save_to_file_other_files. intros Heq. apply Hne.
    now apply (day_path_inj self). }
  split; [exact Hf | now apply load_eval_files].
Qed.

Lemma save_keeps_other_days_witness :
  let yesterday :=
    mkWorld {[ "tracker/25-11-03.json" :=
                 Encoded (ledger_json "25-11-03"
                            [mkFoodEntry "2025-11-03T08:00:00" "1 apple" Sample.apple]
                            (95 # 1)) ]} [] 0 in
  eval (load_daily_data Sample.tracker "25-11-03")
    (exec (save_to_file Sample.outside Sample.tracker "1 cup rice" Sample.rice) yesterday)
  = eval (load_daily_data Sample.tracker "25-11-03") yesterday.
Proof.
  intros yesterday.
  apply (save_keeps_other_days Sample.outside Sample.tracker "1 cup rice" Sample.rice
           yesterday "25-11-03").
  vm_compute. discriminate.
Defined.

(** X6. A file that is not JSON, or a record without the key "entries", counts
    as a day without entries: the save succeeds and replaces the file by
    the record of the new entry alone; what the file held is gone. *)
Theorem save_replaces_damaged_file (E : environment) (self : CalorieTracker)
    (food_description : string) (n : Nutrition) (w : world) (date_str : string) :
  strftime_ymd (now E (ticks w)) = date_str ->
  (files w !! day_path self date_str = Some Undecodable
   \/ exists items, files w !! day_path self date_str = Some (Encoded (JObj items))
                    /\ assoc "entries" items = None) ->
  exists (w' : world) (total : Q),
    save_to_file E self food_description n w = (Ok (day_path self date_str), w')
    /\ files w' !! day_path self date_str
       = Some (Encoded (ledger_json date_str
                 [mkFoodEntry (isoformat (now E (ticks w))) food_description n] total))
    /\ (total == calories n)%Q.
Proof.
  intros Hdate Hfile.
  set (w0 := mkWorld (files w) (stdout w) (S (ticks w))).
  assert (Hload : exists w1, load_daily_data self date_str w0 = (Ok (JArr []), w1)
                             /\ files w1 = files w).
  { destruct Hfile as [Hf|(items & Hf & Hnone)].
    - eexists. rewrite (load_undecodable self date_str w0) by exact Hf. now split.
    - exists w0. rewrite (load_record self date_str w0 items) by exact Hf.
      now rewrite Hnone. }
  destruct Hload as (w1 & Hload & Hfiles).
  unfold save_to_file, bind, ask. simpl. rewrite Hdate. fold w0. rewrite Hload.
  unfold lift. simpl. eexists. eexists. split; [reflexivity|]. simpl.
  split; [rewrite Hfiles; apply lookup_insert_eq | ring].
Qed.

Lemma save_replaces_damaged_file_witness :
  exists (w' : world) (total : Q),
    save_to_file Sample.outside Sample.tracker "1 apple" Sample.apple
      (mkWorld {[ "tracker/25-11-04.json" := Encoded (JObj [("date", JStr "25-11-04")]) ]}
         [] 0)
    = (Ok "tracker/25-11-04.json", w')
    /\ files w' !! "tracker/25-11-04.json"
       = Some (Encoded (ledger_json "25-11-04"
                 [mkFoodEntry "2025-11-04T12:00:00.002500" "1 apple" Sample.apple] total))
    /\ (total == 95 # 1)%Q.
Proof.
  apply (save_replaces_damaged_file Sample.outside Sample.tracker "1 apple" Sample.apple
           (mkWorld {[ "tracker/25-11-04.json" :=
                         Encoded (JObj [("date", JStr "25-11-04")]) ]} [] 0)
           "25-11-04").
  - reflexivity.
  - right. eexists. split; reflexivity.
Defined.

(** X7. When the stored "entries" is not a list, [append] does not exist: the
    save raises [AttributeError] and writes nothing. *)
Theorem save_rejects_entries_not_a_list (E : environment) (self : CalorieTracker)
    (food_description : string) (n : Nutrition) (w : world)
    (items : list (string * json)) (v : json) :
  files w !! day_path self (strftime_ymd (now E (ticks w))) = Some (Encoded (JObj items)) ->
  assoc "entries" items = Some v ->
  (forall l, v <> JArr l) ->
  eval (save_to_file E self food_description n) w = Raise AttributeError
  /\ files (exec (save_to_file E self food_description n) w) = files w.
Proof.
  intros Hf Hv Hnot.
  set (w0 := mkWorld (files w) (stdout w) (S (ticks w))).
  unfold eval, exec, save_to_file, bind, ask. simpl. fold w0.
  rewrite (load_record self _ w0 items) by exact Hf. rewrite Hv. simpl.
  unfold lift. destruct v; simpl; try (split; reflexivity).
  now destruct (Hnot l).
Qed.

Lemma save_rejects_entries_not_a_list_witness :
  eval (save_to_file Sample.outside Sample.tracker "1 apple" Sample.apple)
    (mkWorld {[ "tracker/25-11-04.json" := Encoded (JObj [("entries", JNull)]) ]} [] 0)
  = Raise AttributeError.
Proof.
  apply (save_rejects_entries_not_a_list Sample.outside Sample.tracker "1 apple"
           Sample.apple
           (mkWorld {[ "tracker/25-11-04.json" := Encoded (JObj [("entries", JNull)]) ]}
              [] 0)
           [("entries", JNull)] JNull).
  - reflexivity.
  - reflexivity.
  - discriminate.
Defined.

Lemma sum_calories_from_missing_nutrition (acc : Q) (good : list FoodEntry)
    (bad : list (string * json)) (rest : list json) :
  assoc "nutrition" bad = None ->
  sum_calories_from acc ((entry_json <$> good) ++ JObj bad :: rest)
  = Raise (KeyError "nutrition").
Proof.
  intros Hbad. revert acc. induction good as [|e good IH]; intros acc; simpl.
  - now rewrite Hbad.
  - apply IH.
Qed.

(** X8. One stored entry without the key "nutrition" blocks the day: the
    summary raises [KeyError], and so does every further save, which
    writes nothing. *)
Theorem entry_without_nutrition_blocks_day (E : environment) (self : CalorieTracker)
    (food_description : string) (n : Nutrition) (w : world)
    (items bad : list (string * json)) (good : list FoodEntry) (rest : list json) :
  files w !! day_path self (strftime_ymd (now E (ticks w))) = Some (Encoded (JObj items)) ->
  assoc "entries" items = Some (JArr ((entry_json <$> good) ++ JObj bad :: rest)) ->
  assoc "nutrition" bad = None ->
  eval (calculate_remaining_calories E self) w = Raise (KeyError "nutrition")
  /\ eval (save_to_file E self food_description n) w = Raise (KeyError "nutrition")
  /\ files (exec (save_to_file E self food_description n) w) = files w.
Proof.
  intros Hf Hentries Hbad.
  set (w0 := mkWorld (files w) (stdout w) (S (ticks w))).
  assert (Hload : load_daily_data self (strftime_ymd (now E (ticks w))) w0
                  = (Ok (JArr ((entry_json <$> good) ++ JObj bad :: rest)), w0)).
  { rewrite (load_record self _ w0 items) by exact Hf. now rewrite Hentries. }
  split; [|split].
  - unfold eval, calculate_remaining_calories, bind, ask. simpl. fold w0.
    rewrite Hload. unfold lift, sum_calories. simpl.
    now rewrite sum_calories_from_missing_nutrition.
  - unfold eval, save_to_file, bind, ask. simpl. fold w0.
    rewrite Hload. unfold lift, sum_calories. simpl.
    rewrite <- app_assoc. simpl.
    now rewrite sum_calories_from_missing_nutrition.
  - unfold exec, save_to_file, bind, ask. simpl. fold w0.
    rewrite Hload. unfold lift, sum_calories. simpl.
    rewrite <- app_assoc. simpl.
    now rewrite sum_calories_from_missing_nutrition.
Qed.

Lemma entry_without_nutrition_blocks_day_witness :
  let w := mkWorld {[ "tracker/25-11-04.json" :=
                        Encoded (JObj [("entries",
                                  JArr [JObj [("food", JStr "1 apple")]])]) ]} [] 0 in
  eval (calculate_remaining_calories Sample.outside Sample.tracker) w
    = Raise (KeyError "nutrition")
  /\ eval (save_to_file Sample.outside Sample.tracker "1 cup rice" Sample.rice) w
     = Raise (KeyError "nutrition")
  /\ files (exec (save_to_file Sample.outside Sample.tracker "1 cup rice" Sample.rice) w)
     = files w.
Proof.
  intros w.
  apply (entry_without_nutrition_blocks_day Sample.outside Sample.tracker "1 cup rice"
           Sample.rice w [("entries", JArr [JObj [("food", JStr "1 apple")]])]
           [("food", JStr "1 apple")] [] []).
  - reflexivity.
  - reflexivity.
  - reflexivity.
Defined.

(** X9. After a save on a ledger that holds entries, the summary agrees with
    the record, in any arithmetic of floats: the consumed calories are the
    total stored in the file, both being [sum] over the calories of the
    stored entries, the new one last. *)
Theorem consumed_after_save (A : arithmetic) (E : environment) (self : CalorieTracker)
    (food_description : string) (n : Nutrition) (w : world)
    (date_str : string) (entries : list FoodEntry) :
  strftime_ymd (now E (ticks w)) = date_str ->
  strftime_ymd (now E (S (ticks w))) = date_str ->
  holds_entries self date_str w entries ->
  exists (w1 w2 : world) (stored consumed remaining : Q) (saved : list FoodEntry),
    Rounded.save_to_file A E self food_description n w = (Ok (day_path self date_str), w1)
    /\ files w1 !! day_path self date_str
       = Some (Encoded (ledger_json date_str saved stored))
    /\ saved = entries ++ [mkFoodEntry (isoformat (now E (ticks w))) food_description n]
    /\ Rounded.calculate_remaining_calories A E self w1 = (Ok (consumed, remaining), w2)
    /\ consumed = stored
    /\ stored = py_sum A (calories_of saved)
    /\ remaining = minus A (inject_Z (daily_limit self)) consumed.
Proof.
  intros Hdate Hnext Hholds.
  destruct (rounded_save_holds A E self food_description n w date_str entries Hdate Hholds)
    as (w1 & Hsave & Hfiles & Hticks).
  destruct (rounded_calculate_holds A E self w1 date_str
              (entries ++ [mkFoodEntry (isoformat (now E (ticks w))) food_description n]))
    as (w2 & Hcalc & _).
  { now rewrite Hticks. }
  { eapply holds_entries_saved. exact Hfiles. }
  do 6 eexists. split; [exact Hsave|].
  split; [rewrite Hfiles; apply lookup_insert_eq|].
  split; [reflexivity|]. split; [exact Hcalc|]. auto.
Qed.

Lemma consumed_after_save_witness :
  let tenth := Sample.nearest_float (1 # 10) in
  let fifth := Sample.nearest_float (2 # 10) in
  let w := mkWorld {[ "tracker/25-11-04.json" :=
             Encoded (ledger_json "25-11-04"
                        [mkFoodEntry "2025-11-04T08:00:00" "tea" (mkNutrition 0 0 0 tenth)]
                        tenth) ]} [] 0 in
  exists (w1 w2 : world) (stored consumed remaining : Q) (saved : list FoodEntry),
    Rounded.save_to_file Sample.binary64 Sample.outside Sample.tracker "toast"
      (mkNutrition 0 0 0 fifth) w = (Ok "tracker/25-11-04.json", w1)
    /\ files w1 !! "tracker/25-11-04.json"
       = Some (Encoded (ledger_json "25-11-04" saved stored))
    /\ Rounded.calculate_remaining_calories Sample.binary64 Sample.outside
         Sample.tracker w1 = (Ok (consumed, remaining), w2)
    /\ consumed = stored
    /\ Qred stored = (1351079888211149 # 4503599627370496)%Q.
Proof.
  intros tenth fifth w.
  destruct (consumed_after_save Sample.binary64 Sample.outside Sample.tracker "toast"
              (mkNutrition 0 0 0 fifth) w "25-11-04"
              [mkFoodEntry "2025-11-04T08:00:00" "tea" (mkNutrition 0 0 0 tenth)])
    as (w1 & w2 & stored & consumed & remaining & saved
        & Hsave & Hfile & Hsaved & Hcalc & Hc & Hs & _).
  - reflexivity.
  - reflexivity.
  - right. right. exists tenth. reflexivity.
  - exists w1, w2, stored, consumed, remaining, saved.
    split; [exact Hsave|]. split; [exact Hfile|]. split; [exact Hcalc|].
    split; [exact Hc|]. rewrite Hs, Hsaved. vm_compute. reflexivity.
Defined.

(** ** Timestamps and the names of the files *)

Lemma digit_char_digit (n : nat) : Regex.is_digit (digit_char n) = true.
Proof.
  unfold digit_char. pose proof (Nat.mod_upper_bound n 10) as Hlt.
  destruct (n mod 10)%nat as [|[|[|[|[|[|[|[|[|[|k]]]]]]]]]]; try reflexivity; lia.
Qed.

Lemma pad_digits (width n : nat) :
  Forall (fun c => Regex.is_digit c = true) (list_ascii_of_string (pad width n)).
Proof.
  revert n. induction width as [|width IH]; intros n; simpl; [constructor|].
  rewrite list_ascii_of_string_app. apply Forall_app. split; [apply IH|].
  repeat constructor. apply digit_char_digit.
Qed.

Lemma pad_length (width n : nat) : length (list_ascii_of_string (pad width n)) = width.
Proof.
  revert n. induction width as [|width IH]; intros n; simpl; [reflexivity|].
  rewrite list_ascii_of_string_app, length_app, IH. simpl. lia.
Qed.

Lemma after_T_digits (a r : list ascii) :
  Forall (fun c => Regex.is_digit c = true) a -> after_T (a ++ r) = after_T r.
Proof.
  induction 1 as [|c a Hc _ IH]; simpl; [reflexivity|].
  rewrite bool_decide_eq_false_2; [exact IH|]. now intros ->.
Qed.

Lemma until_T_digits (a r : list ascii) :
  Forall (fun c => Regex.is_digit c = true) a -> until_T (a ++ r) = a ++ until_T r.
Proof.
  induction 1 as [|c a Hc _ IH]; simpl; [reflexivity|].
  rewrite bool_decide_eq_false_2; [now rewrite IH|]. now intros ->.
Qed.

Lemma time_of_isoformat (t : datetime) :
  time_of_timestamp (JStr (isoformat t))
  = Ok (pad 2 (hour t) +:+ ":" +:+ pad 2 (minute t)).
Proof.
  unfold time_of_timestamp, isoformat.
  rewrite !list_ascii_of_string_app.
  rewrite after_T_digits by apply pad_digits. cbn [list_ascii_of_string app after_T].
  rewrite bool_decide_eq_false_2 by discriminate.
  rewrite after_T_digits by apply pad_digits. cbn [list_ascii_of_string app after_T].
  rewrite bool_decide_eq_false_2 by discriminate.
  rewrite after_T_digits by apply pad_digits. cbn [list_ascii_of_string app after_T].
  rewrite bool_decide_eq_true_2 by reflexivity.
  f_equal. apply list_ascii_of_string_inj.
  rewrite list_ascii_of_string_of_list_ascii, !list_ascii_of_string_app.
  cbn [list_ascii_of_string app].
  rewrite until_T_digits by apply pad_digits. cbn [until_T].
  rewrite bool_decide_eq_false_2 by discriminate.
  rewrite until_T_digits by apply pad_digits.
  pose proof (pad_length 2 (hour t)) as Hh. pose proof (pad_length 2 (minute t)) as Hm.
  destruct (list_ascii_of_string (pad 2 (hour t))) as [|h1 [|h2 [|]]]; try discriminate.
  destruct (list_ascii_of_string (pad 2 (minute t))) as [|m1 [|m2 [|]]]; try discriminate.
  reflexivity.
Qed.

(** X11. The timestamp of an entry can be read back: after the two digits of
    the century it holds the date as [strftime('%y-%m-%d')] writes it, the
    name of the file of the entry; and the time shown for the entry is the
    hour and the minute of the save, two digits each. *)
Theorem timestamp_names_day_and_time (t : datetime) :
  (exists century rest : string,
     isoformat t = century +:+ strftime_ymd t +:+ "T" +:+ rest
     /\ String.length century = 2%nat)
  /\ time_of_timestamp (JStr (isoformat t))
     = Ok (pad 2 (hour t) +:+ ":" +:+ pad 2 (minute t)).
Proof.
  split; [|apply time_of_isoformat].
  exists (String (digit_char (year t / 10 / 10 / 10))
            (String (digit_char (year t / 10 / 10)) "")).
  eexists. split; reflexivity.
Qed.

Lemma digit_char_plus_10 (n k : nat) : digit_char (n + 10 * k) = digit_char n.
Proof.
  unfold digit_char. f_equal. f_equal.
  rewrite (Nat.mul_comm 10 k). apply Nat.Div0.mod_add.
Qed.

(** X12. The name of the file keeps two digits of the year: the same day a
    century later is written into the same file. *)
Theorem century_shares_the_file (self : CalorieTracker) (t : datetime) :
  day_path self
    (strftime_ymd (mkDatetime (year t + 100) (month t) (day t) (hour t) (minute t)
                     (second t) (microsecond t)))
  = day_path self (strftime_ymd t).
Proof.
  f_equal. unfold strftime_ymd. simpl year. simpl month. simpl day.
  assert (Hpad : pad 2 (year t + 100) = pad 2 (year t)).
  { change (String (digit_char ((year t + 100) / 10))
              (String (digit_char (year t + 100)) "")
            = String (digit_char (year t / 10)) (String (digit_char (year t)) "")).
    replace ((year t + 100) / 10)%nat with (year t / 10 + 10 * 1)%nat.
    - replace (year t + 100)%nat with (year t + 10 * 10)%nat by lia.
      now rewrite !digit_char_plus_10.
    - change 100%nat with (10 * 10)%nat. rewrite Nat.div_add by lia. lia. }
  now rewrite Hpad.
Qed.

(** ** The line typed at the prompt *)

Lemma lstrip_split (s : list ascii) :
  exists a, s = a ++ lstrip s /\ Forall (fun c => is_space c = true) a.
Proof.
  induction s as [|c s (a & Hs & Ha)]; simpl.
  - exists []. split; [reflexivity | constructor].
  - destruct (is_space c) eqn:Hc.
    + exists (c :: a). split; [simpl; now f_equal | now constructor].
    + exists []. split; [reflexivity | constructor].
Qed.

Lemma lstrip_head (s r : list ascii) (c : ascii) :
  lstrip s = c :: r -> is_space c = false.
Proof.
  induction s as [|x s IH]; simpl; [discriminate|].
  destruct (is_space x) eqn:Hx; [exact IH|]. now intros [= <- _].
Qed.

Lemma lstrip_nil (s : list ascii) :
  lstrip s = [] <-> Forall (fun c => is_space c = true) s.
Proof.
  induction s as [|c s IH]; simpl.
  - split; [constructor | reflexivity].
  - destruct (is_space c) eqn:Hc.
    + rewrite IH. split; [now constructor | now inversion 1].
    + split; [discriminate | inversion 1; congruence].
Qed.

Lemma strip_chars_split (s : list ascii) :
  exists a b, s = a ++ strip_chars s ++ b
              /\ Forall (fun c => is_space c = true) a
              /\ Forall (fun c => is_space c = true) b.
Proof.
  unfold strip_chars.
  destruct (lstrip_split s) as (a & Hs & Ha).
  destruct (lstrip_split (rev (lstrip s))) as (b & Hr & Hb).
  exists a, (rev b). split; [|split; [exact Ha | now apply Forall_rev]].
  rewrite Hs at 1. f_equal.
  rewrite <- rev_app_distr, <- Hr. symmetry. apply rev_involutive.
Qed.

Lemma strip_chars_nil (s : list ascii) :
  strip_chars s = [] <-> Forall (fun c => is_space c = true) s.
Proof.
  destruct (strip_chars_split s) as (a & b & Hs & Ha & Hb). split.
  - intros Hnil. rewrite Hs, Hnil. simpl. now apply Forall_app.
  - intros Hall. unfold strip_chars.
    assert (Hl : lstrip s = []) by now apply lstrip_nil.
    now rewrite Hl.
Qed.

Lemma list_ascii_of_strip (s : string) :
  list_ascii_of_string (strip s) = strip_chars (list_ascii_of_string s).
Proof. unfold strip. apply list_ascii_of_string_of_list_ascii. Qed.

Lemma strip_empty (s : string) :
  strip s = "" <-> Forall (fun c => is_space c = true) (list_ascii_of_string s).
Proof.
  rewrite <- strip_chars_nil, <- list_ascii_of_strip. split.
  - now intros ->.
  - intros H. now apply list_ascii_of_string_inj.
Qed.

(** [strip] removes white space at both ends and nothing else: the text is
    its result between two runs of white space, and the result neither
    starts nor ends with white space. *)
Lemma strip_removes_outer_white_space (s : string) :
  (exists a b : list ascii,
     list_ascii_of_string s = a ++ list_ascii_of_string (strip s) ++ b
     /\ Forall (fun c => is_space c = true) a
     /\ Forall (fun c => is_space c = true) b)
  /\ (forall (c : ascii) (r : list ascii),
        list_ascii_of_string (strip s) = c :: r -> is_space c = false)
  /\ (forall (c : ascii) (r : list ascii),
        list_ascii_of_string (strip s) = r ++ [c] -> is_space c = false).
Proof.
  rewrite list_ascii_of_strip. split; [apply strip_chars_split|]. split.
  - intros c r Hc.
    destruct (strip_chars_split (list_ascii_of_string s)) as (a & b & Hs & Ha & Hb).
    destruct (lstrip_split (list_ascii_of_string s)) as (a' & Hs' & _).
    unfold strip_chars in *.
    destruct (lstrip_split (rev (lstrip (list_ascii_of_string s)))) as (b' & Hr & _).
    apply (f_equal (@rev ascii)) in Hr. rewrite rev_involutive, rev_app_distr in Hr.
    rewrite Hc in Hr. simpl in Hr. now apply lstrip_head in Hr.
  - intros c r Hc. unfold strip_chars in Hc.
    apply (f_equal (@rev ascii)) in Hc. rewrite rev_involutive, rev_app_distr in Hc.
    simpl in Hc. now apply lstrip_head in Hc.
Qed.

Lemma listed_items (self_print : nat -> string -> line) (l : list string) (i : nat)
    (w : world) :
  exists w',
    (fix each (i : nat) (l : list string) : M unit :=
       match l with
       | [] => ret tt
       | f :: r => print (self_print i f);;; each (S i) r
       end) i l w = (Ok tt, w')
    /\ files w' = files w /\ ticks w' = ticks w.
Proof.
  revert i w. induction l as [|f l IH]; intros i w.
  - exists w. auto.
  - rewrite bind_unfold. cbn [print].
    destruct (IH (S i) (mkWorld (files w) (stdout w ++ [self_print i f]) (ticks w)))
      as (w' & Heach & Hf & Ht).
    exists w'. auto.
Qed.

Lemma get_user_input_given (E : environment) (food_description : string)
    (rest : list string) (w : world) :
  exists w',
    get_user_input E (Some (food_description :: rest)) w
      = (Ok (food_description :: rest), w')
    /\ files w' = files w /\ ticks w' = ticks w.
Proof.
  unfold get_user_input.
  repeat (rewrite bind_unfold; cbn [print]).
  match goal with
  | |- context [?each 2%nat rest ?w0] =>
      destruct (listed_items ListedItem rest 2 w0) as (w' & Heach & Hf & Ht)
  end.
  rewrite Heach. exists w'. simpl in *. auto.
Qed.

Lemma get_user_input_asked (E : environment) (fd : option (list string)) (w : world) :
  fd = None \/ fd = Some [] ->
  get_user_input E fd w =
    (if bool_decide (strip (input E (ticks w)) = "") then Raise (ValueError MsgFoodEmpty)
     else Ok [strip (input E (ticks w))],
     mkWorld (files w) ((stdout w ++ [Title]) ++ [Rule] ++ [Prompt]) (S (ticks w))).
Proof.
  intros [-> | ->]; unfold get_user_input, bind, print, ask; simpl;
    rewrite <- !app_assoc; simpl;
    destruct (bool_decide (strip (input E (ticks w)) = "")); reflexivity.
Qed.

(** X14. With descriptions given, [get_user_input] returns them and does not
    read the terminal.  Without any (none, or an empty list) it reads one
    line: a line of white space only, the empty line included, raises
    "Food description cannot be empty"; any other line is the one
    description, stripped.  No file is touched. *)
Theorem get_user_input_cases (E : environment)
    (food_descriptions : option (list string)) (w : world) :
  files (exec (get_user_input E food_descriptions) w) = files w
  /\ match food_descriptions with
     | Some (food_description :: rest) =>
         eval (get_user_input E food_descriptions) w = Ok (food_description :: rest)
         /\ ticks (exec (get_user_input E food_descriptions) w) = ticks w
     | _ =>
         let typed := input E (ticks w) in
         ticks (exec (get_user_input E food_descriptions) w) = S (ticks w)
         /\ (Forall (fun c => is_space c = true) (list_ascii_of_string typed) ->
             eval (get_user_input E food_descriptions) w = Raise (ValueError MsgFoodEmpty))
         /\ (~ Forall (fun c => is_space c = true) (list_ascii_of_string typed) ->
             eval (get_user_input E food_descriptions) w = Ok [strip typed])
     end.
Proof.
  assert (Hasked : forall fd, (fd = None \/ fd = Some []) ->
    let typed := input E (ticks w) in
    files (exec (get_user_input E fd) w) = files w
    /\ ticks (exec (get_user_input E fd) w) = S (ticks w)
    /\ (Forall (fun c => is_space c = true) (list_ascii_of_string typed) ->
        eval (get_user_input E fd) w = Raise (ValueError MsgFoodEmpty))
    /\ (~ Forall (fun c => is_space c = true) (list_ascii_of_string typed) ->
        eval (get_user_input E fd) w = Ok [strip typed])).
  { intros fd Hfd typed.
    unfold exec, eval. rewrite (get_user_input_asked E fd w Hfd). fold typed. simpl.
    repeat split.
    - intros Hblank. apply strip_empty in Hblank.
      now rewrite bool_decide_eq_true_2.
    - intros Hnot. rewrite bool_decide_eq_false_2; [reflexivity|].
      intros Hempty. now apply strip_empty in Hempty. }
  destruct food_descriptions as [[|food_description rest]|].
  - destruct (Hasked (Some []) (or_intror eq_refl)) as (Hf & Ht & Hb & Hn). auto.
  - destruct (get_user_input_given E food_description rest w) as (w' & Hrun & Hf & Ht).
    unfold exec, eval. rewrite Hrun. simpl. auto.
  - destruct (Hasked None (or_introl eq_refl)) as (Hf & Ht & Hb & Hn). auto.
Qed.

(** The white space among the code points below 256, and a line made of
    a no-break space, a next-line character and a space: it is blank. *)
Example white_space_code_points :
  filter (fun n => is_space (ascii_of_nat n) = true) (seq 0 256)
  = [9; 10; 11; 12; 13; 28; 29; 30; 31; 32; 133; 160]%nat
  /\ eval (get_user_input
             (mkEnvironment (now Sample.outside) (post Sample.outside)
                (fun _ => String (ascii_of_nat 160) (String (ascii_of_nat 133) " ")))
             None) Sample.empty_world
     = Raise (ValueError MsgFoodEmpty).
Proof. split; vm_compute; reflexivity. Qed.

Lemma get_user_input_cases_witness :
  eval (get_user_input Sample.outside None) Sample.empty_world
  = Raise (ValueError MsgFoodEmpty).
Proof.
  apply (proj1 (proj2 (proj2 (get_user_input_cases Sample.outside None Sample.empty_world)))).
  constructor.
Defined.

(** ** The request to the service *)

Lemma query_llm_run (E : environment) (self : CalorieTracker) (food_description : string)
    (w : world) :
  query_llm E self food_description w =
    let w1 := mkWorld (files w) (stdout w ++ [QueryingLLM]) (S (ticks w)) in
    match post E (ticks w) (llm_url self) (payload_of food_description) with
    | RequestFailed m => (Raise (Exception_ (MsgFailedToQuery m)), w1)
    | Body j =>
        match dict_get j "response" (JStr "") with
        | Ok llm_response =>
            let w2 := mkWorld (files w) (stdout w1 ++ [LLMResponse llm_response])
                        (S (ticks w)) in
            match llm_response with
            | JStr s => (parse_nutritional_data s, w2)
            | _ => (Raise TypeError, w2)
            end
        | Raise e => (Raise e, w1)
        end
    end.
Proof.
  unfold query_llm, payload_of, bind, print, ask, lift, raise. simpl.
  destruct (post E _ _ _) as [m|j]; [reflexivity|].
  destruct (dict_get j "response" (JStr "")) as [[| | |s| |]|e]; reflexivity.
Qed.

Lemma query_llm_ticks (E : environment) (self : CalorieTracker)
    (food_description : string) (w : world) :
  ticks (exec (query_llm E self food_description) w) = S (ticks w).
Proof.
  unfold exec. rewrite query_llm_run. simpl.
  destruct (post E _ _ _) as [m|j]; [reflexivity|].
  destruct (dict_get j "response" (JStr "")) as [[| | |s| |]|e]; reflexivity.
Qed.

(** X15. [query_llm] returns an estimate only when the service answered with an
    object whose "response" is a text in which four numbers or more are
    found; the estimate is the one parsed from this text, its four values
    are not negative, and no file was written. *)
Theorem query_llm_estimate (E : environment) (self : CalorieTracker)
    (food_description : string) (w : world) (n : Nutrition) :
  eval (query_llm E self food_description) w = Ok n ->
  exists (items : list (string * json)) (reply : string),
    post E (ticks w) (llm_url self) (payload_of food_description) = Body (JObj items)
    /\ assoc "response" items = Some (JStr reply)
    /\ (4 <= length (Regex.findall reply))%nat
    /\ parse_nutritional_data reply = Ok n
    /\ (0 <= proteins n)%Q /\ (0 <= carbs n)%Q /\ (0 <= fat n)%Q /\ (0 <= calories n)%Q
    /\ files (exec (query_llm E self food_description) w) = files w.
Proof.
  intros Hq. unfold eval in Hq. rewrite query_llm_run in Hq. simpl in Hq.
  destruct (post E _ _ _) as [m|j] eqn:Hpost; [discriminate|].
  destruct j as [| | | | |items]; try discriminate.
  simpl in Hq.
  destruct (assoc "response" items) as [v|] eqn:Hv; simpl in Hq.
  - destruct v as [| | |reply| |]; try discriminate. simpl in Hq.
    exists items, reply. split; [reflexivity|]. split; [exact Hv|].
    destruct (Nat.lt_ge_cases (length (Regex.findall reply)) 4) as [Hlt|Hge].
    { rewrite parse_of_fewer in Hq by exact Hlt. discriminate. }
    split; [exact Hge|]. split; [exact Hq|].
    apply parse_total in Hge as (? & ? & ? & ? & ? & p & c & f & k & H).
    destruct H as (_ & _ & _ & _ & _ & Hp & Hc & Hf & Hk & Hparse).
    rewrite Hparse in Hq. injection Hq as <-. simpl.
    repeat split; try assumption. apply query_llm_files.
  - discriminate.
Qed.

Lemma query_llm_estimate_witness :
  exists (items : list (string * json)) (reply : string),
    post Sample.outside 0 (llm_url Sample.tracker) (payload_of "1 apple")
      = Body (JObj items)
    /\ assoc "response" items = Some (JStr reply)
    /\ (4 <= length (Regex.findall reply))%nat
    /\ parse_nutritional_data reply = Ok Sample.apple.
Proof.
  destruct (query_llm_estimate Sample.outside Sample.tracker "1 apple"
              Sample.empty_world Sample.apple)
    as (items & reply & H1 & H2 & H3 & H4 & _).
  - reflexivity.
  - exists items, reply. auto.
Defined.

(** ** Showing the entries of the day *)

Lemma display_entry_lines (i : nat) (ts food_description hm : string) (n : Nutrition)
    (w : world) :
  time_of_timestamp (JStr ts) = Ok hm ->
  display_entry i (entry_json (mkFoodEntry ts food_description n)) w =
    (Ok tt, mkWorld (files w)
              ((stdout w ++ [ExistingEntry i hm (JStr food_description)])
               ++ [ExistingNutrition (proteins n) (carbs n) (fat n) (calories n)])
              (ticks w)).
Proof.
  intros Hts.
  assert (H1 : subscript (entry_json (mkFoodEntry ts food_description n)) "timestamp"
               = Ok (JStr ts)) by reflexivity.
  assert (H2 : subscript (entry_json (mkFoodEntry ts food_description n)) "nutrition"
               = Ok (nutrition_json n)) by reflexivity.
  assert (H3 : subscript (entry_json (mkFoodEntry ts food_description n)) "food"
               = Ok (JStr food_description)) by reflexivity.
  assert (H4 : subscript (nutrition_json n) "proteins" = Ok (JNum (proteins n)))
    by reflexivity.
  assert (H5 : subscript (nutrition_json n) "carbs" = Ok (JNum (carbs n)))
    by reflexivity.
  assert (H6 : subscript (nutrition_json n) "fat" = Ok (JNum (fat n)))
    by reflexivity.
  assert (H7 : subscript (nutrition_json n) "calories" = Ok (JNum (calories n)))
    by reflexivity.
  unfold display_entry.
  repeat (rewrite bind_unfold; cbn [lift print format_1f as_number];
          rewrite ?H1, ?H2, ?H3, ?H4, ?H5, ?H6, ?H7, ?Hts).
  reflexivity.
Qed.

Lemma display_entries_lines (items : list (datetime * (string * Nutrition))) (i : nat)
    (w : world) :
  exists w',
    display_entries i (entry_json <$> (entry_at <$> items)) w = (Ok tt, w')
    /\ files w' = files w /\ ticks w' = ticks w
    /\ stdout w' = stdout w ++ shown_entries i items.
Proof.
  revert i w. induction items as [|[t [food n]] items IH]; intros i w.
  - exists w. simpl. rewrite app_nil_r. auto.
  - cbn [fmap list_fmap display_entries]. rewrite bind_unfold.
    unfold entry_at at 1. cbn [fst snd].
    rewrite (display_entry_lines i _ _ _ n w (time_of_isoformat t)).
    destruct (IH (S i) (mkWorld (files w)
                ((stdout w ++ [ExistingEntry i (pad 2 (hour t) +:+ ":" +:+ pad 2 (minute t))
                                 (JStr food)])
                 ++ [ExistingNutrition (proteins n) (carbs n) (fat n) (calories n)])
                (ticks w)))
      as (w' & Hrest & Hf & Ht & Hout).
    exists w'. split; [exact Hrest|]. simpl in *.
    rewrite Hout, <- !app_assoc. auto.
Qed.

(** What [display_existing_entries] does on a ledger that holds saved
    items: it does not fail, writes no file, and prints the items in order
    with the hour and minute of their save. *)
Lemma display_existing_entries_saved (E : environment) (self : CalorieTracker)
    (w : world) (date_str : string) (items : list (datetime * (string * Nutrition))) :
  strftime_ymd (now E (ticks w)) = date_str ->
  holds_entries self date_str w (entry_at <$> items) ->
  exists (w' : world) (warning : list line),
    display_existing_entries E self w = (Ok tt, w')
    /\ files w' = files w /\ ticks w' = S (ticks w)
    /\ stdout w' = stdout w ++ warning ++
         match items with
         | [] => [NoEntriesFound date_str; Rule]
         | _ => [ExistingHeader date_str; Rule] ++ shown_entries 1 items ++ [Rule]
         end
    /\ (files w !! day_path self date_str <> Some Undecodable -> warning = []).
Proof.
  intros Hdate Hholds.
  set (w0 := mkWorld (files w) (stdout w) (S (ticks w))).
  unfold display_existing_entries. rewrite bind_unfold. cbn [ask]. rewrite Hdate.
  fold w0. rewrite bind_unfold.
  destruct Hholds as [[Hf Hnil]|[[Hf Hnil]|[total Hf]]].
  - apply fmap_nil_inv in Hnil. subst items.
    rewrite (load_absent self date_str w0) by exact Hf.
    eexists. exists []. cbn. repeat split; try reflexivity.
    simpl; now rewrite <- ?app_assoc.
  - apply fmap_nil_inv in Hnil. subst items.
    rewrite (load_undecodable self date_str w0) by exact Hf.
    eexists. exists [WarnCouldNotRead (day_path self date_str) JSONDecodeError].
    cbn. repeat split; try reflexivity.
    + simpl; now rewrite <- ?app_assoc.
    + intros Hne. now destruct Hne.
  - assert (Hload : load_daily_data self date_str w0
                    = (Ok (JArr (entry_json <$> (entry_at <$> items))), w0)).
    { unfold ledger_json in Hf. now rewrite (load_record self date_str w0 _ Hf). }
    rewrite Hload.
    destruct items as [|x items].
    + eexists. exists []. cbn. repeat split; try reflexivity.
      simpl; now rewrite <- ?app_assoc.
    + remember (entry_json <$> (entry_at <$> x :: items)) as l eqn:Hl.
      assert (Htruthy : truthy (JArr l) = true).
      { subst l. cbn [truthy fmap list_fmap].
        now rewrite bool_decide_eq_false_2 by discriminate. }
      rewrite Htruthy. unfold bind, print, lift, iterate. simpl.
      match goal with
      | |- context [display_entries 1 l ?w1] =>
          destruct (display_entries_lines (x :: items) 1 w1)
            as (w' & Hshow & Hf' & Ht & Hout)
      end.
      rewrite <- Hl in Hshow. rewrite Hshow.
      eexists. exists []. split; [reflexivity|]. simpl in *.
      rewrite Hf', Ht, Hout. repeat split; try reflexivity.
      now rewrite <- ?app_assoc.
Qed.

Lemma recorded_clocked (E : environment) (k : nat) (items : list (string * Nutrition)) :
  recorded E k items = entry_at <$> clocked E k 1 items.
Proof.
  revert k. induction items as [|[food n] items IH]; intros k; simpl; [reflexivity|].
  unfold entry_at at 1. simpl. f_equal. rewrite IH. now rewrite Nat.add_1_r.
Qed.

(** X16. What was saved is what is shown: after N appends on an empty day,
    [display_existing_entries] prints the N items in the order of the
    appends, numbered from 1, each with its description, its four values
    and the hour and minute of its save; with no append it prints that no
    entries were found.  It writes no file. *)
Theorem display_shows_what_was_saved (E : environment) (self : CalorieTracker)
    (items : list (string * Nutrition)) (w : world) (date_str : string) :
  files w !! day_path self date_str = None ->
  (forall i, (i <= length items)%nat -> strftime_ymd (now E (ticks w + i)) = date_str) ->
  exists w1 w2 : world,
    appends E self items w = (Ok tt, w1)
    /\ display_existing_entries E self w1 = (Ok tt, w2)
    /\ files w2 = files w1
    /\ stdout w2 = stdout w1 ++
         match items with
         | [] => [NoEntriesFound date_str; Rule]
         | _ => [ExistingHeader date_str; Rule]
                ++ shown_entries 1 (clocked E (ticks w) 1 items) ++ [Rule]
         end.
Proof.
  intros Hnone Hdate.
  destruct (appends_holds E self items w date_str []) as (w1 & Happ & Hholds & Hticks).
  { intros i Hi. apply Hdate. lia. }
  { left. auto. }
  simpl in Hholds. rewrite recorded_clocked in Hholds.
  destruct (display_existing_entries_saved E self w1 date_str
              (clocked E (ticks w) 1 items))
    as (w2 & warning & Hshow & Hf & _ & Hout & Hwarn).
  { rewrite Hticks. apply Hdate. lia. }
  { exact Hholds. }
  exists w1, w2. split; [exact Happ|]. split; [exact Hshow|]. split; [exact Hf|].
  rewrite Hout, Hwarn.
  - destruct items as [|x items]; reflexivity.
  - destruct Hholds as [[Hf1 _]|[[Hf1 Hnil]|[total Hf1]]]; rewrite Hf1; try discriminate.
    apply fmap_nil_inv in Hnil. destruct items as [|x items]; [|discriminate].
    simpl in Happ. injection Happ as <-. congruence.
Qed.

Lemma display_shows_what_was_saved_witness :
  exists w1 w2 : world,
    appends Sample.outside Sample.tracker
      [("1 apple", Sample.apple); ("1 cup rice", Sample.rice)] Sample.empty_world
      = (Ok tt, w1)
    /\ display_existing_entries Sample.outside Sample.tracker w1 = (Ok tt, w2)
    /\ files w2 = files w1
    /\ stdout w2 = stdout w1 ++
         [ExistingHeader "25-11-04"; Rule;
          ExistingEntry 1 "12:00" (JStr "1 apple");
          ExistingNutrition (1 # 2) (25 # 1) (3 # 10) (95 # 1);
          ExistingEntry 2 "12:01" (JStr "1 cup rice");
          ExistingNutrition (43 # 10) (45 # 1) (2 # 5) (411 # 2);
          Rule].
Proof.
  apply (display_shows_what_was_saved Sample.outside Sample.tracker
           [("1 apple", Sample.apple); ("1 cup rice", Sample.rice)]
           Sample.empty_world "25-11-04").
  - reflexivity.
  - intros i _. reflexivity.
Defined.

(** ** Whole runs *)

Section Runs.

Variable E : environment.
Variable self : CalorieTracker.
Variable date_str : string.
Hypothesis clock_on_day : forall k, strftime_ymd (now E k) = date_str.

(** The loop when every estimate succeeds: each item is saved in turn. *)
Lemma process_items_all (est : string -> Nutrition) (foods : list string) :
  (forall food_description, food_description ∈ foods ->
     forall w, eval (query_llm E self food_description) w = Ok (est food_description)) ->
  forall (i n : nat) (filepaths : list string) (w : world)
         (old : list (datetime * (string * Nutrition))),
    holds_entries self date_str w (entry_at <$> old) ->
    exists w',
      process_items E self i n foods filepaths w
        = (Ok (filepaths ++ replicate (length foods) (day_path self date_str)), w')
      /\ holds_entries self date_str w'
           (entry_at <$> (old ++ clocked E (S (ticks w)) 2
                                   ((fun f => (f, est f)) <$> foods)))
      /\ ticks w' = (ticks w + 2 * length foods)%nat.
Proof.
  induction foods as [|food foods IH]; intros Hest i n filepaths w old Hholds.
  - exists w. simpl. rewrite !app_nil_r, Nat.add_0_r. auto.
  - cbn [process_items]. rewrite bind_unfold. cbn [print].
    set (wp := mkWorld (files w) (stdout w ++ [ProcessingItem i n food]) (ticks w)).
    rewrite bind_unfold.
    pose proof (Hest food (list_elem_of_here _ _) wp) as Hq.
    pose proof (query_llm_files E self food wp) as Hqf.
    pose proof (query_llm_ticks E self food wp) as Hqt.
    unfold eval, exec in Hq, Hqf, Hqt.
    destruct (query_llm E self food wp) as [r wq]. simpl in Hq, Hqf, Hqt. subst r.
    rewrite bind_unfold.
    destruct (save_to_file_holds E self food (est food) wq date_str (entry_at <$> old))
      as (ws & total & Hsave & Hsf & _ & Hst).
    { apply clock_on_day. }
    { now apply (holds_entries_files self date_str w). }
    rewrite Hsave, bind_unfold. cbn [print].
    set (wa := mkWorld (files ws) (stdout ws ++ [Added (calories (est food))]) (ticks ws)).
    destruct (IH (fun f Hf => Hest f (list_elem_of_further _ _ _ Hf))
                (S i) n (filepaths ++ [day_path self date_str]) wa
                (old ++ [(now E (ticks wq), (food, est food))]))
      as (w' & Hrest & Hh & Ht).
    { apply (holds_entries_saved self date_str wa _ total (files wq)).
      rewrite fmap_app. exact Hsf. }
    exists w'. rewrite Hrest. split; [|split].
    + f_equal. f_equal. rewrite <- app_assoc. reflexivity.
    + rewrite <- app_assoc in Hh. simpl in Hh. simpl.
      rewrite Hst, !Hqt in Hh.
      replace (S (ticks w + 2))%nat with (S (S (S (ticks w)))) by lia. exact Hh.
    + rewrite Ht. simpl. rewrite Hst, Hqt. simpl. lia.
Qed.

(** The part of [run] before the loop, on a ledger that holds saved items:
    it comes to asking for the food descriptions, two readings of the clock
    later and with the files untouched. *)
Lemma run_prologue_saved (fd : option (list string)) (w : world)
    (old : list (datetime * (string * Nutrition))) :
  holds_entries self date_str w (entry_at <$> old) ->
  exists w0,
    run_prologue E self fd w = get_user_input E fd w0
    /\ files w0 = files w /\ ticks w0 = S (S (ticks w)).
Proof.
  intros Hholds. unfold run_prologue. rewrite bind_unfold.
  destruct (display_existing_entries_saved E self w date_str old (clock_on_day _) Hholds)
    as (w1 & warning & Hshow & Hf1 & Ht1 & _).
  rewrite Hshow, bind_unfold.
  destruct (calculate_holds E self w1 date_str (entry_at <$> old) (clock_on_day _))
    as (consumed & w2 & Hcalc & _ & Hf2 & Ht2).
  { now apply (holds_entries_files self date_str w). }
  rewrite Hcalc. cbv beta iota. rewrite bind_unfold.
  destruct (Qltb 0 consumed).
  - rewrite bind_unfold. cbn [print]. eexists. split; [reflexivity|].
    simpl. rewrite Hf2, Ht2, Hf1, Ht1. auto.
  - cbn [ret]. exists w2. split; [reflexivity|].
    rewrite Hf2, Ht2, Hf1, Ht1. auto.
Qed.

End Runs.

(** X18. When the service estimates every item, [run] records all of them: the
    ledger of the day then holds what it held before followed by the new
    items in the order given, each with the estimate of the service and the
    time of its save, and the run ends by committing the file of the
    day. *)
Theorem run_records_all_items (E : environment) (self : CalorieTracker)
    (date_str : string) (est : string -> Nutrition)
    (food_description : string) (rest : list string) (w : world)
    (old : list (datetime * (string * Nutrition))) :
  let foods := food_description :: rest in
  (forall k, strftime_ymd (now E k) = date_str) ->
  (forall f, f ∈ foods -> forall w, eval (query_llm E self f) w = Ok (est f)) ->
  holds_entries self date_str w (entry_at <$> old) ->
  exists w',
    run E self (Some foods) w = (Ok tt, w')
    /\ holds_entries self date_str w'
         (entry_at <$> (old ++ clocked E (ticks w + 3) 2 ((fun f => (f, est f)) <$> foods)))
    /\ last (stdout w') = Some (GitCommitPush (day_path self date_str)).
Proof.
  intros foods Hclock Hest Hholds.
  destruct (run_prologue_saved E self date_str Hclock (Some foods) w old Hholds)
    as (w0 & Hpro & Hf0 & Ht0).
  destruct (get_user_input_given E food_description rest w0) as (w1 & Hgiven & Hf1 & Ht1).
  destruct (process_items_all E self date_str Hclock est foods Hest 1 (length foods) [] w1 old)
    as (w2 & Hloop & Hh2 & Ht2).
  { apply (holds_entries_files self date_str w); [congruence | exact Hholds]. }
  destruct (calculate_holds E self w2 date_str _ (Hclock _) Hh2)
    as (consumed & w3 & Hcalc & _ & Hf3 & Ht3).
  destruct (display_daily_summary_tier self consumed
              (inject_Z (daily_limit self) - consumed)%Q w3)
    as (tier & Hshow & _).
  eexists. split; [|split].
  - unfold run, try_except. rewrite bind_unfold, Hpro. fold foods in Hgiven.
    rewrite Hgiven, bind_unfold, Hloop. unfold run_epilogue.
    rewrite bind_unfold, Hcalc. cbv beta iota. rewrite bind_unfold, Hshow.
    cbn [app replicate length foods]. rewrite bind_unfold. cbn [print git_commit_and_push].
    reflexivity.
  - apply (holds_entries_files self date_str w2); [simpl; exact Hf3|].
    rewrite Ht1, Ht0 in Hh2.
    replace (ticks w + 3)%nat with (S (S (S (ticks w)))) by lia. exact Hh2.
  - cbn [stdout]. apply last_snoc.
Qed.

Lemma run_records_all_items_witness :
  exists w',
    run Sample.outside Sample.tracker (Some ["1 apple"; "1 cup rice"]) Sample.empty_world
      = (Ok tt, w')
    /\ holds_entries Sample.tracker "25-11-04" w'
         (entry_at <$>
            [(mkDatetime 2025 11 4 12 3 0 2500, ("1 apple", Sample.apple));
             (mkDatetime 2025 11 4 12 5 0 2500, ("1 cup rice", Sample.rice))])
    /\ last (stdout w') = Some (GitCommitPush "tracker/25-11-04.json").
Proof.
  destruct (run_records_all_items Sample.outside Sample.tracker "25-11-04"
              (fun f => if bool_decide (f = "1 apple") then Sample.apple else Sample.rice)
              "1 apple" ["1 cup rice"] Sample.empty_world [])
    as (w' & Hrun & Hholds & Hlast).
  - intros k. reflexivity.
  - intros f Hf w.
    apply elem_of_cons in Hf as [-> | Hf]; [reflexivity|].
    apply list_elem_of_singleton in Hf as ->. reflexivity.
  - left. split; reflexivity.
  - exists w'. split; [exact Hrun|]. split; [exact Hholds | exact Hlast].
Defined.

(** X19. Started without a description, [run] asks for one; when the line typed
    is empty or white space only, nothing is estimated or recorded: the run
    reports "Food description cannot be empty" and returns, the files as
    they were. *)
Theorem run_with_blank_line (E : environment) (self : CalorieTracker)
    (date_str : string) (w : world) (old : list (datetime * (string * Nutrition))) :
  (forall k, strftime_ymd (now E k) = date_str) ->
  holds_entries self date_str w (entry_at <$> old) ->
  Forall (fun c => is_space c = true) (list_ascii_of_string (input E (ticks w + 2))) ->
  exists w',
    run E self None w = (Ok tt, w')
    /\ files w' = files w
    /\ ticks w' = (ticks w + 3)%nat
    /\ last (stdout w') = Some (ErrorReport (ValueError MsgFoodEmpty)).
Proof.
  intros Hclock Hholds Hblank.
  destruct (run_prologue_saved E self date_str Hclock None w old Hholds)
    as (w0 & Hpro & Hf0 & Ht0).
  replace (ticks w + 2)%nat with (ticks w0) in Hblank by lia.
  apply strip_empty in Hblank.
  eexists. split; [|split; [|split]].
  - unfold run, try_except. rewrite bind_unfold, Hpro.
    rewrite (get_user_input_asked E None w0 (or_introl eq_refl)).
    rewrite bool_decide_eq_true_2 by exact Hblank. cbn [print]. reflexivity.
  - simpl. exact Hf0.
  - simpl. lia.
  - cbn [stdout]. apply last_snoc.
Qed.

Lemma run_with_blank_line_witness :
  exists w',
    run Sample.outside Sample.tracker None Sample.empty_world = (Ok tt, w')
    /\ files w' = files Sample.empty_world
    /\ ticks w' = 3%nat
    /\ last (stdout w') = Some (ErrorReport (ValueError MsgFoodEmpty)).
Proof.
  apply (run_with_blank_line Sample.outside Sample.tracker "25-11-04"
           Sample.empty_world []).
  - intros k. reflexivity.
  - left. split; reflexivity.
  - constructor.
Defined.

(** ** A stored timestamp without a time *)

Lemma after_T_none (s : list ascii) :
  Forall (fun c => c <> "T"%char) s -> after_T s = None.
Proof.
  induction 1 as [|c s Hc _ IH]; simpl; [reflexivity|].
  now rewrite bool_decide_eq_false_2.
Qed.

Lemma display_entry_no_time (i : nat) (e : FoodEntry) (w : world) :
  Forall (fun c => c <> "T"%char) (list_ascii_of_string (timestamp e)) ->
  display_entry i (entry_json e) w
  = (Raise (IndexError (MsgBuiltin "list index out of range")), w).
Proof.
  intros Hno.
  assert (H1 : subscript (entry_json e) "timestamp" = Ok (JStr (timestamp e)))
    by reflexivity.
  unfold display_entry. rewrite bind_unfold. cbn [lift]. rewrite H1.
  rewrite bind_unfold. cbn [lift time_of_timestamp]. now rewrite after_T_none.
Qed.

Lemma display_existing_entries_no_time (E : environment) (self : CalorieTracker)
    (w : world) (date_str : string) (e : FoodEntry) (entries : list FoodEntry) :
  strftime_ymd (now E (ticks w)) = date_str ->
  holds_entries self date_str w (e :: entries) ->
  Forall (fun c => c <> "T"%char) (list_ascii_of_string (timestamp e)) ->
  exists w',
    display_existing_entries E self w
      = (Raise (IndexError (MsgBuiltin "list index out of range")), w')
    /\ files w' = files w /\ ticks w' = S (ticks w).
Proof.
  intros Hdate Hholds Hno.
  set (w0 := mkWorld (files w) (stdout w) (S (ticks w))).
  destruct (load_holds self date_str w0 (e :: entries)) as (w1 & Hload & Hf1 & Ht1).
  { now apply (holds_entries_files self date_str w). }
  unfold display_existing_entries. rewrite bind_unfold. cbn [ask]. rewrite Hdate.
  fold w0. rewrite bind_unfold, Hload.
  remember (entry_json <$> entries) as l.
  cbn [fmap list_fmap truthy]. rewrite bool_decide_eq_false_2 by discriminate.
  cbn [negb]. rewrite bind_unfold. cbn [print]. rewrite bind_unfold. cbn [print].
  rewrite bind_unfold. cbn [lift iterate]. rewrite bind_unfold.
  cbn [display_entries]. rewrite bind_unfold.
  rewrite display_entry_no_time by exact Hno.
  eexists. split; [reflexivity|]. simpl. split; [exact Hf1 | exact Ht1].
Qed.

(** X17. A first entry stored with a timestamp that has no "T" (a date alone,
    say) stops every later run of that day at its start: showing the entries
    raises [IndexError], the run reports it and returns, and nothing is
    asked, estimated or recorded. *)
Theorem entry_without_time_stops_run (E : environment) (self : CalorieTracker)
    (food_descriptions : option (list string)) (w : world) (date_str : string)
    (e : FoodEntry) (entries : list FoodEntry) :
  strftime_ymd (now E (ticks w)) = date_str ->
  holds_entries self date_str w (e :: entries) ->
  Forall (fun c => c <> "T"%char) (list_ascii_of_string (timestamp e)) ->
  exists w',
    run E self food_descriptions w = (Ok tt, w')
    /\ files w' = files w
    /\ ticks w' = S (ticks w)
    /\ last (stdout w')
       = Some (ErrorReport (IndexError (MsgBuiltin "list index out of range"))).
Proof.
  intros Hdate Hholds Hno.
  destruct (display_existing_entries_no_time E self w date_str e entries Hdate Hholds Hno)
    as (w1 & Hshow & Hf1 & Ht1).
  eexists. split; [|split; [|split]].
  - unfold run, try_except, run_prologue. rewrite !bind_unfold, Hshow. cbn [print].
    reflexivity.
  - simpl. exact Hf1.
  - simpl. exact Ht1.
  - cbn [stdout]. apply last_snoc.
Qed.

Lemma entry_without_time_stops_run_witness :
  let w := mkWorld {[ "tracker/25-11-04.json" :=
                        Encoded (ledger_json "25-11-04"
                                   [mkFoodEntry "2025-11-04" "1 apple" Sample.apple]
                                   (95 # 1)) ]} [] 0 in
  exists w',
    run Sample.outside Sample.tracker (Some ["1 cup rice"]) w = (Ok tt, w')
    /\ files w' = files w
    /\ ticks w' = 1%nat
    /\ last (stdout w')
       = Some (ErrorReport (IndexError (MsgBuiltin "list index out of range"))).
Proof.
  intros w.
  apply (entry_without_time_stops_run Sample.outside Sample.tracker (Some ["1 cup rice"])
           w "25-11-04" (mkFoodEntry "2025-11-04" "1 apple" Sample.apple) []).
  - reflexivity.
  - right. right. exists (95 # 1)%Q. reflexivity.
  - repeat constructor; discriminate.
Defined.

(** ** What a save prints *)

(** X10. A save on a ledger that holds entries returns the path of the file of
    the day and ends by printing this path and the number of entries now
    stored, one more than before. *)
Theorem save_reports_entry_count (E : environment) (self : CalorieTracker)
    (food_description : string) (n : Nutrition) (w : world)
    (date_str : string) (entries : list FoodEntry) :
  strftime_ymd (now E (ticks w)) = date_str ->
  holds_entries self date_str w entries ->
  exists (w' : world) (before : list line),
    save_to_file E self food_description n w = (Ok (day_path self date_str), w')
    /\ stdout w' = before ++ [Saved (day_path self date_str);
                              TotalEntries (S (length entries))]
    /\ eval (load_daily_data self date_str) w'
       = Ok (JArr (entry_json <$>
                     (entries ++ [mkFoodEntry (isoformat (now E (ticks w)))
                                    food_description n]))).
Proof.
  intros Hdate Hholds.
  unfold save_to_file, bind, ask. simpl. rewrite Hdate.
  set (w0 := mkWorld (files w) (stdout w) (S (ticks w))).
  destruct (load_holds self date_str w0 entries) as (w1 & Hload & Hfiles & Hticks).
  { now apply (holds_entries_files self date_str w). }
  rewrite Hload. unfold lift. simpl.
  set (entry := mkFoodEntry (isoformat (now E (ticks w))) food_description n).
  destruct (sum_calories_entries (entries ++ [entry])) as (total & Hsum & _).
  rewrite fmap_app in Hsum. simpl in Hsum. unfold entry_json at 2 in Hsum.
  simpl in Hsum. rewrite Hsum. simpl.
  eexists. exists (stdout w1). split; [reflexivity|]. simpl. split.
  - rewrite <- app_assoc, length_app, length_fmap. simpl.
    now rewrite Nat.add_1_r.
  - unfold eval. fold (day_path self date_str).
    set (w' := mkWorld _ _ _).
    rewrite (load_record self date_str w'
               [("entries", JArr ((entry_json <$> entries) ++ [entry_json entry]));
                ("total_calories", JNum total); ("date", JStr date_str)]).
    + simpl. now rewrite fmap_app.
    + subst w'. simpl. apply lookup_insert_eq.
Qed.

Lemma save_reports_entry_count_witness :
  exists (w' : world) (before : list line),
    save_to_file Sample.outside Sample.tracker "1 apple" Sample.apple Sample.empty_world
      = (Ok "tracker/25-11-04.json", w')
    /\ stdout w' = before ++ [Saved "tracker/25-11-04.json"; TotalEntries 1].
Proof.
  destruct (save_reports_entry_count Sample.outside Sample.tracker "1 apple" Sample.apple
              Sample.empty_world "25-11-04" [])
    as (w' & before & Hsave & Hout & _).
  - reflexivity.
  - left. split; reflexivity.
  - exists w', before. split; [exact Hsave | exact Hout].
Defined.

